(** * Socially: the post, like and comment server actions

    A shallow embedding of the server actions [createPost], [getPosts],
    [toggleLike], [createComment] and [deletePost].  The actions are
    asynchronous TypeScript functions that talk to three collaborators:
    the identity resolver [getDbUserId], the Prisma client [prisma] and
    the cache invalidator [revalidatePath].  Each of them can throw, and
    every action wraps its body in one [try]/[catch].

    The embedding threads a [World] (database, session, console, cache
    marks, and a plan that says which collaborator calls throw) through
    a state-and-exception monad in which an exception keeps the state
    reached so far, as a JavaScript exception does. *)

From Stdlib Require Import String List ZArith Bool Lia Permutation Sorted.
From Stdlib Require Import DecimalString.
Import ListNotations.
Local Open Scope string_scope.

(** ** JavaScript values the actions inspect *)

(** What a [throw] carries: an [Error] object with its message, or any
    other value (the [catch] of [createPost] tells them apart with
    [instanceof Error]). *)
Inductive thrown : Type :=
| JsError (message : string)
| JsOther (shown : string).

(** [!userId] on a [string | null]: [null] and the empty string are
    falsy.  [truthy] returns the string when the test lets it through. *)
Definition truthy (v : option string) : option string :=
  match v with
  | Some s => if s =? "" then None else Some s
  | None => None
  end.

(** [a !== u] where [a] is a string and [u] a [string | null]. *)
Definition strict_neq (a : string) (u : option string) : bool :=
  match u with
  | Some s => negb (a =? s)
  | None => true
  end.

(** ** The relations *)

Inductive NotificationType : Type := LIKE | COMMENT.

(** Modelled from the spec: the Prisma schema is not among the sources;
    the relations and their fields follow the data model (Post, Comment,
    Like, Notification, User) and the fields the actions read and write. *)
Record User : Type := mkUser {
  user_id : string;
  user_username : string;
  user_name : option string;
  user_image : option string }.

Record Post : Type := mkPost {
  post_id : string;
  post_content : string;
  post_image : option string;
  post_createdAt : Z;
  post_authorId : string }.

Record Comment : Type := mkComment {
  comment_id : string;
  comment_content : string;
  comment_authorId : string;
  comment_postId : string;
  comment_createdAt : Z }.

Record Like : Type := mkLike {
  like_userId : string;
  like_postId : string }.

Record Notification : Type := mkNotification {
  notification_id : string;
  notification_type : NotificationType;
  notification_userId : string;
  notification_creatorId : string;
  notification_postId : option string;
  notification_commentId : option string;
  notification_createdAt : Z }.

Record Db : Type := mkDb {
  users : list User;
  posts : list Post;
  comments : list Comment;
  likes : list Like;
  notifications : list Notification }.

Definition set_posts (v : list Post) (d : Db) : Db :=
  mkDb (users d) v (comments d) (likes d) (notifications d).
Definition set_comments (v : list Comment) (d : Db) : Db :=
  mkDb (users d) (posts d) v (likes d) (notifications d).
Definition set_likes (v : list Like) (d : Db) : Db :=
  mkDb (users d) (posts d) (comments d) v (notifications d).
Definition set_notifications (v : list Notification) (d : Db) : Db :=
  mkDb (users d) (posts d) (comments d) (likes d) v.

(** ** The world an action runs in *)

Inductive LogLevel : Type := LevelError | LevelLog.

Record LogEntry : Type := mkLog {
  log_level : LogLevel;
  log_label : string;
  log_payload : thrown }.

(** [session] is what the identity resolver finds for the request;
    [faults] is consumed one entry per collaborator call, [Some e]
    making that call throw [e] (an exhausted plan never throws);
    [next_id] and [clock] feed the generated identifiers and creation
    times; [console] and [revalidated] record the two observable side
    effects besides the database. *)
Record World : Type := mkWorld {
  db : Db;
  session : option string;
  faults : list (option thrown);
  next_id : nat;
  clock : Z;
  console : list LogEntry;
  revalidated : list string }.

Definition with_db (v : Db) (w : World) : World :=
  mkWorld v (session w) (faults w) (next_id w) (clock w) (console w) (revalidated w).
Definition with_faults (v : list (option thrown)) (w : World) : World :=
  mkWorld (db w) (session w) v (next_id w) (clock w) (console w) (revalidated w).
Definition with_next_id (v : nat) (w : World) : World :=
  mkWorld (db w) (session w) (faults w) v (clock w) (console w) (revalidated w).
Definition with_clock (v : Z) (w : World) : World :=
  mkWorld (db w) (session w) (faults w) (next_id w) v (console w) (revalidated w).
Definition with_console (v : list LogEntry) (w : World) : World :=
  mkWorld (db w) (session w) (faults w) (next_id w) (clock w) v (revalidated w).
Definition with_revalidated (v : list string) (w : World) : World :=
  mkWorld (db w) (session w) (faults w) (next_id w) (clock w) (console w) v.

(** ** The monad of asynchronous code *)

(** An awaited computation either rejects ([inl]) or resolves ([inr]);
    in both cases the world it reached is kept. *)
Definition M (A : Type) : Type := World -> (thrown + A) * World.

Definition ret {A : Type} (a : A) : M A := fun w => (inr a, w).

Definition bind {A B : Type} (m : M A) (k : A -> M B) : M B :=
  fun w =>
    match m w with
    | (inl e, w') => (inl e, w')
    | (inr a, w') => k a w'
    end.

Definition throw {A : Type} (e : thrown) : M A := fun w => (inl e, w).

Definition try_catch {A : Type} (body : M A) (handler : thrown -> M A) : M A :=
  fun w =>
    match body w with
    | (inl e, w') => handler e w'
    | (inr a, w') => (inr a, w')
    end.

Declare Scope action_scope.
Delimit Scope action_scope with action.
Notation "x <- m ;; k" := (bind m (fun x => k))
  (at level 61, m at next level, right associativity) : action_scope.
Notation "m ;; k" := (bind m (fun _ => k))
  (at level 61, right associativity) : action_scope.
Local Open Scope action_scope.

Definition get_db : M Db := fun w => (inr (db w), w).
Definition put_db (d : Db) : M unit := fun w => (inr tt, with_db d w).

(** One call into a collaborator: it throws when the plan says so. *)
Definition external : M unit :=
  fun w =>
    match faults w with
    | [] => (inr tt, w)
    | None :: rest => (inr tt, with_faults rest w)
    | Some e :: rest => (inl e, with_faults rest w)
    end.

(** Generated identifiers ([@default(cuid())]) and creation times
    ([@default(now())]). *)
Definition cuid : M string :=
  fun w =>
    (inr ("c" ++ NilEmpty.string_of_uint (Nat.to_uint (next_id w))),
     with_next_id (S (next_id w)) w).

Definition now : M Z :=
  fun w => (inr (clock w), with_clock (clock w + 1)%Z w).

Definition console_error (label : string) (e : thrown) : M unit :=
  fun w => (inr tt, with_console (console w ++ [mkLog LevelError label e]) w).

Definition console_log (label : string) (e : thrown) : M unit :=
  fun w => (inr tt, with_console (console w ++ [mkLog LevelLog label e]) w).

(** [revalidatePath(path)]: marks the route stale. *)
Definition revalidatePath (path : string) : M unit :=
  external ;;
  fun w => (inr tt, with_revalidated (revalidated w ++ [path]) w).

(** Modelled from the spec: [getDbUserId] lives in [user.action], which
    is not among the sources; the identity resolver maps the session to
    a nullable internal user identifier. *)
Definition getDbUserId : M (option string) :=
  external ;;
  fun w => (inr (session w), w).

(** ** The Prisma client *)

Inductive SortOrder : Type := asc | desc.

Definition order_le (o : SortOrder) (a b : Z) : bool :=
  match o with
  | asc => (a <=? b)%Z
  | desc => (b <=? a)%Z
  end.

Fixpoint insert_by {A : Type} (le : A -> A -> bool) (x : A) (l : list A) : list A :=
  match l with
  | [] => [x]
  | y :: l' => if le x y then x :: y :: l' else y :: insert_by le x l'
  end.

Definition sort_by {A : Type} (le : A -> A -> bool) (l : list A) : list A :=
  fold_right (insert_by le) [] l.

Fixpoint traverse {A B : Type} (f : A -> option B) (l : list A) : option (list B) :=
  match l with
  | [] => Some []
  | x :: l' =>
      match f x, traverse f l' with
      | Some y, Some ys => Some (y :: ys)
      | _, _ => None
      end
  end.

(** The row [findUnique] returns under [select: { authorId: true }]. *)
Record PostAuthorId : Type := mkPostAuthorId { sel_authorId : string }.

Module Prisma.

(** *** The arguments of [findMany] *)

(** [select: { id, name, image, username }] on a user, [select:
    { userId, postId }] on a like, [_count: { select: { likes,
    comments } }]: a field is in the result when its flag is [true]. *)
Record UserSelect : Type := mkUserSelect {
  select_id : bool;
  select_name : bool;
  select_image : bool;
  select_username : bool }.

Record LikeSelect : Type := mkLikeSelect {
  select_userId : bool;
  select_postId : bool }.

Record CountSelect : Type := mkCountSelect {
  select_count_likes : bool;
  select_count_comments : bool }.

(** [comments: { include: { author }, orderBy: { createdAt } }] *)
Record CommentsArgs : Type := mkCommentsArgs {
  comments_author : option UserSelect;
  comments_orderBy : option SortOrder }.

(** [include: { author, comments, likes, _count }]: a relation is in
    the result when it is named. *)
Record PostInclude : Type := mkPostInclude {
  include_author : option UserSelect;
  include_comments : option CommentsArgs;
  include_likes : option LikeSelect;
  include_count : option CountSelect }.

Record PostFindManyArgs : Type := mkPostFindManyArgs {
  orderBy : option SortOrder;
  include : PostInclude }.

(** *** The rows of [findMany] *)

(** The client types its rows by the arguments: a field that is not
    selected, a relation that is not included, is not there. *)
Definition selected (b : bool) (A : Type) : Type := if b then A else unit.

Definition included {S : Type} (o : option S) (A : S -> Type) : Type :=
  match o with
  | Some s => A s
  | None => unit
  end.

Record UserPayload (s : UserSelect) : Type := mkUserPayload {
  payload_id : selected (select_id s) string;
  payload_name : selected (select_name s) (option string);
  payload_image : selected (select_image s) (option string);
  payload_username : selected (select_username s) string }.

Record LikePayload (s : LikeSelect) : Type := mkLikePayload {
  payload_userId : selected (select_userId s) string;
  payload_postId : selected (select_postId s) string }.

Record CountPayload (s : CountSelect) : Type := mkCountPayload {
  payload_count_likes : selected (select_count_likes s) nat;
  payload_count_comments : selected (select_count_comments s) nat }.

Record CommentPayload (a : CommentsArgs) : Type := mkCommentPayload {
  payload_comment : Comment;
  payload_comment_author : included (comments_author a) UserPayload }.

Record PostPayload (i : PostInclude) : Type := mkPostPayload {
  payload_post : Post;
  payload_author : included (include_author i) UserPayload;
  payload_comments : included (include_comments i) (fun a => list (CommentPayload a));
  payload_likes : included (include_likes i) (fun s => list (LikePayload s));
  payload_count : included (include_count i) CountPayload }.

Arguments payload_id {s}.
Arguments payload_name {s}.
Arguments payload_image {s}.
Arguments payload_username {s}.
Arguments payload_userId {s}.
Arguments payload_postId {s}.
Arguments payload_count_likes {s}.
Arguments payload_count_comments {s}.
Arguments payload_comment {a}.
Arguments payload_comment_author {a}.
Arguments payload_post {i}.
Arguments payload_author {i}.
Arguments payload_comments {i}.
Arguments payload_likes {i}.
Arguments payload_count {i}.

(** *** Lookups *)

Definition post_has_id (id : string) (p : Post) : bool := post_id p =? id.

Definition like_has_key (userId postId : string) (l : Like) : bool :=
  (like_userId l =? userId) && (like_postId l =? postId).

Definition find_post (id : string) (d : Db) : option Post :=
  find (post_has_id id) (posts d).

Definition find_like (userId postId : string) (d : Db) : option Like :=
  find (like_has_key userId postId) (likes d).

Definition find_user (id : string) (d : Db) : option User :=
  find (fun u => user_id u =? id) (users d).

Definition comments_of (d : Db) (p : Post) : list Comment :=
  filter (fun c => comment_postId c =? post_id p) (comments d).

Definition likes_of (d : Db) (p : Post) : list Like :=
  filter (fun l => like_postId l =? post_id p) (likes d).

(** *** [findMany] *)

Definition select_field (b : bool) {A : Type} (x : A) : selected b A :=
  match b as b' return selected b' A with
  | true => x
  | false => tt
  end.

Definition select_user (s : UserSelect) (u : User) : UserPayload s :=
  mkUserPayload s
    (select_field (select_id s) (user_id u))
    (select_field (select_name s) (user_name u))
    (select_field (select_image s) (user_image u))
    (select_field (select_username s) (user_username u)).

Definition select_like (s : LikeSelect) (l : Like) : LikePayload s :=
  mkLikePayload s
    (select_field (select_userId s) (like_userId l))
    (select_field (select_postId s) (like_postId l)).

(** [orderBy: { createdAt: o }]; without it the rows come as stored. *)
Definition order_rows {A : Type} (o : option SortOrder) (createdAt : A -> Z)
    (l : list A) : list A :=
  match o with
  | Some o => sort_by (fun a b => order_le o (createdAt a) (createdAt b)) l
  | None => l
  end.

(** [author] is a required relation: a row that points to no user makes
    the client reject the whole query. *)
Definition related_author (o : option UserSelect) (d : Db) (authorId : string)
  : option (included o UserPayload) :=
  match o as o' return option (included o' UserPayload) with
  | Some s => option_map (select_user s) (find_user authorId d)
  | None => Some tt
  end.

Definition include_comment (a : CommentsArgs) (d : Db) (c : Comment)
  : option (CommentPayload a) :=
  option_map (mkCommentPayload a c)
    (related_author (comments_author a) d (comment_authorId c)).

Definition related_comments (o : option CommentsArgs) (d : Db) (p : Post)
  : option (included o (fun a => list (CommentPayload a))) :=
  match o as o' return option (included o' (fun a => list (CommentPayload a))) with
  | Some a =>
      traverse (include_comment a d)
        (order_rows (comments_orderBy a) comment_createdAt (comments_of d p))
  | None => Some tt
  end.

Definition related_likes (o : option LikeSelect) (d : Db) (p : Post)
  : included o (fun s => list (LikePayload s)) :=
  match o as o' return included o' (fun s => list (LikePayload s)) with
  | Some s => map (select_like s) (likes_of d p)
  | None => tt
  end.

Definition related_count (o : option CountSelect) (d : Db) (p : Post)
  : included o CountPayload :=
  match o as o' return included o' CountPayload with
  | Some s =>
      mkCountPayload s
        (select_field (select_count_likes s) (length (likes_of d p)))
        (select_field (select_count_comments s) (length (comments_of d p)))
  | None => tt
  end.

Definition include_post (i : PostInclude) (d : Db) (p : Post) : option (PostPayload i) :=
  match related_author (include_author i) d (post_authorId p),
        related_comments (include_comments i) d p with
  | Some author, Some cs =>
      Some (mkPostPayload i p author cs
              (related_likes (include_likes i) d p)
              (related_count (include_count i) d p))
  | _, _ => None
  end.

(** [prisma.post.findMany({ orderBy, include })] *)
Definition post_findMany (args : PostFindManyArgs)
  : M (list (PostPayload (include args))) :=
  external ;;
  d <- get_db ;;
  match traverse (include_post (include args) d)
          (order_rows (orderBy args) post_createdAt (posts d)) with
  | Some rows => ret rows
  | None => throw (JsError "Inconsistent query result: Field author is required to return data, got `null` instead.")
  end.

(** [prisma.post.create({ data: { content, image, authorId } })] *)
Definition post_create (content image authorId : string) : M Post :=
  external ;;
  id <- cuid ;;
  t <- now ;;
  d <- get_db ;;
  let p := mkPost id content (Some image) t authorId in
  put_db (set_posts (posts d ++ [p]) d) ;;
  ret p.

(** [prisma.post.findUnique({ where: { id }, select: { authorId: true } })] *)
Definition post_findUnique (id : string) : M (option PostAuthorId) :=
  external ;;
  d <- get_db ;;
  ret (option_map (fun p => mkPostAuthorId (post_authorId p)) (find_post id d)).

(** [prisma.post.delete({ where: { id } })]: rejects when there is no
    such record.  Modelled from the spec: the schema's referential
    actions are not among the sources; a Post owns its Comments and
    Likes, which go with it. *)
Definition post_delete (id : string) : M Post :=
  external ;;
  d <- get_db ;;
  match find_post id d with
  | None => throw (JsError "Record to delete does not exist.")
  | Some p =>
      put_db (mkDb (users d)
                (filter (fun q => negb (post_has_id id q)) (posts d))
                (filter (fun c => negb (comment_postId c =? id)) (comments d))
                (filter (fun l => negb (like_postId l =? id)) (likes d))
                (notifications d)) ;;
      ret p
  end.

(** [prisma.like.findUnique({ where: { userId_postId: { userId, postId } } })] *)
Definition like_findUnique (userId postId : string) : M (option Like) :=
  external ;;
  d <- get_db ;;
  ret (find_like userId postId d).

(** [prisma.like.delete({ where: { userId_postId: { userId, postId } } })] *)
Definition like_delete (userId postId : string) : M Like :=
  external ;;
  d <- get_db ;;
  match find_like userId postId d with
  | None => throw (JsError "Record to delete does not exist.")
  | Some l =>
      put_db (set_likes (filter (fun k => negb (like_has_key userId postId k)) (likes d)) d) ;;
      ret l
  end.

(** [prisma.like.create({ data: { userId, postId } })]: [userId_postId]
    is a unique key, so a second row for the pair is rejected. *)
Definition like_create (userId postId : string) : M Like :=
  external ;;
  d <- get_db ;;
  match find_like userId postId d with
  | Some _ => throw (JsError "Unique constraint failed on the fields: (`userId`,`postId`)")
  | None =>
      let l := mkLike userId postId in
      put_db (set_likes (likes d ++ [l]) d) ;;
      ret l
  end.

(** [prisma.notification.create({ data: { type, userId, creatorId,
    postId, commentId? } })] *)
Definition notification_create (type : NotificationType)
    (userId creatorId postId : string) (commentId : option string)
  : M Notification :=
  external ;;
  id <- cuid ;;
  t <- now ;;
  d <- get_db ;;
  let n := mkNotification id type userId creatorId (Some postId) commentId t in
  put_db (set_notifications (notifications d ++ [n]) d) ;;
  ret n.

(** [tx.comment.create({ data: { content, authorId, postId } })] *)
Definition comment_create (content authorId postId : string) : M Comment :=
  external ;;
  id <- cuid ;;
  t <- now ;;
  d <- get_db ;;
  let c := mkComment id content authorId postId t in
  put_db (set_comments (comments d ++ [c]) d) ;;
  ret c.

(** [prisma.$transaction(async (tx) => body)]: the writes of [body]
    are committed together; when [body] or the commit throws, the
    database is put back as it was and the error is thrown on. *)
Definition transaction {A : Type} (body : M A) : M A :=
  fun w =>
    match (x <- body ;; external ;; ret x) w with
    | (inl e, w') => (inl e, with_db (db w) w')
    | (inr a, w') => (inr a, w')
    end.

Fixpoint in_order {A : Type} (ops : list (M A)) : M (list A) :=
  match ops with
  | [] => ret []
  | op :: rest => x <- op ;; xs <- in_order rest ;; ret (x :: xs)
  end.

(** [prisma.$transaction([op1, op2, ...])]: the operations run in
    order inside one transaction. *)
Definition transaction_batch {A : Type} (ops : list (M A)) : M (list A) :=
  transaction (in_order ops).

End Prisma.

(** A query whose row the caller does not look at. *)
Definition discard {A : Type} (m : M A) : M unit := m ;; ret tt.

(** ** The actions *)

(** What an action resolves to: nothing at all ([return;]), a
    [{ success: true, ... }] envelope, or [{ success: false, error }]. *)
Inductive Result (A : Type) : Type :=
| Undefined
| Success (payload : A)
| Failure (error : string).
Arguments Undefined {A}.
Arguments Success {A} payload.
Arguments Failure {A} error.

Record PostSummary : Type := mkPostSummary {
  ps_id : string;
  ps_content : string;
  ps_image : option string;
  ps_createdAt : Z;
  ps_authorId : string }.

Definition createPost_label : string := "فشل إنشاء المنشور:".
Definition createPost_fallback : string := "فشل إنشاء المنشور".

Definition createPost_body (content image : string) : M (Result PostSummary) :=
  userId <- getDbUserId ;;
  match truthy userId with
  | None => ret Undefined
  | Some userId =>
      post <- Prisma.post_create content image userId ;;
      revalidatePath "/" ;;
      ret (Success (mkPostSummary (post_id post) (post_content post)
                      (post_image post) (post_createdAt post) (post_authorId post)))
  end.

(** [error instanceof Error ? error.message : fallback] *)
Definition createPost_message (error : thrown) : string :=
  match error with
  | JsError message => message
  | JsOther _ => createPost_fallback
  end.

Definition createPost (content image : string) : M (Result PostSummary) :=
  try_catch (createPost_body content image)
    (fun error =>
       console_error createPost_label error ;;
       ret (Failure (createPost_message error))).

(** The argument of [findMany] in [getPosts]. *)
Definition getPosts_args : Prisma.PostFindManyArgs :=
  Prisma.mkPostFindManyArgs
    (Some desc)
    (Prisma.mkPostInclude
       (Some (Prisma.mkUserSelect true true true true))
       (Some (Prisma.mkCommentsArgs
                (Some (Prisma.mkUserSelect true true true true))
                (Some asc)))
       (Some (Prisma.mkLikeSelect true false))
       (Some (Prisma.mkCountSelect true false))).

(** The rows of [getPosts], as these arguments type them, and their
    fields [author.id], [comments], [likes[i].userId], [_count.likes]. *)
Definition AuthorSummary : Type :=
  Prisma.UserPayload (Prisma.mkUserSelect true true true true).

Definition CommentWithAuthor : Type :=
  Prisma.CommentPayload
    (Prisma.mkCommentsArgs (Some (Prisma.mkUserSelect true true true true)) (Some asc)).

Definition LikeUserId : Type := Prisma.LikePayload (Prisma.mkLikeSelect true false).

Definition PostWithRelations : Type := Prisma.PostPayload (Prisma.include getPosts_args).

Definition author_id (a : AuthorSummary) : string := Prisma.payload_id a.
Definition author_name (a : AuthorSummary) : option string := Prisma.payload_name a.
Definition author_image (a : AuthorSummary) : option string := Prisma.payload_image a.
Definition author_username (a : AuthorSummary) : string := Prisma.payload_username a.

Definition cwa_comment (c : CommentWithAuthor) : Comment := Prisma.payload_comment c.
Definition cwa_author (c : CommentWithAuthor) : AuthorSummary :=
  Prisma.payload_comment_author c.

Definition mkLikeUserId (userId : string) : LikeUserId :=
  Prisma.mkLikePayload (Prisma.mkLikeSelect true false) userId tt.
Definition lu_userId (l : LikeUserId) : string := Prisma.payload_userId l.

Definition pwr_post (row : PostWithRelations) : Post := Prisma.payload_post row.
Definition pwr_author (row : PostWithRelations) : AuthorSummary := Prisma.payload_author row.
Definition pwr_comments (row : PostWithRelations) : list CommentWithAuthor :=
  Prisma.payload_comments row.
Definition pwr_likes (row : PostWithRelations) : list LikeUserId := Prisma.payload_likes row.
Definition pwr_count_likes (row : PostWithRelations) : nat :=
  Prisma.payload_count_likes (Prisma.payload_count row).

Definition getPosts_body : M (list PostWithRelations) :=
  Prisma.post_findMany getPosts_args.

Definition getPosts : M (list PostWithRelations) :=
  try_catch getPosts_body
    (fun error =>
       console_log "Error in getPosts" error ;;
       throw (JsError "Failed in fetch posts")).

Definition toggleLike_body (postId : string) : M (Result unit) :=
  userId <- getDbUserId ;;
  match truthy userId with
  | None => ret Undefined
  | Some userId =>
      existingLike <- Prisma.like_findUnique userId postId ;;
      post <- Prisma.post_findUnique postId ;;
      match post with
      | None => throw (JsError "Post not found")
      | Some post =>
          match existingLike with
          | Some _ => discard (Prisma.like_delete userId postId)
          | None =>
              discard (Prisma.transaction_batch
                ([discard (Prisma.like_create userId postId)]
                 ++ (if strict_neq (sel_authorId post) (Some userId)
                     then [discard (Prisma.notification_create LIKE
                                      (sel_authorId post) userId postId None)]
                     else [])))
          end ;;
          revalidatePath "/" ;;
          ret (Success tt)
      end
  end.

Definition toggleLike (postId : string) : M (Result unit) :=
  try_catch (toggleLike_body postId)
    (fun error =>
       console_error "Failed to toggle like:" error ;;
       ret (Failure "Failed to toggle like")).

Definition createComment_body (postId content : string) : M (Result Comment) :=
  userId <- getDbUserId ;;
  match truthy userId with
  | None => ret Undefined
  | Some userId =>
      if content =? "" then throw (JsError "Content is required")
      else
        post <- Prisma.post_findUnique postId ;;
        match post with
        | None => throw (JsError "Post not found")
        | Some post =>
            comment <- Prisma.transaction
              (newComment <- Prisma.comment_create content userId postId ;;
               (if strict_neq (sel_authorId post) (Some userId)
                then discard (Prisma.notification_create COMMENT
                                (sel_authorId post) userId postId
                                (Some (comment_id newComment)))
                else ret tt) ;;
               ret newComment) ;;
            revalidatePath "/" ;;
            ret (Success comment)
        end
  end.

Definition createComment (postId content : string) : M (Result Comment) :=
  try_catch (createComment_body postId content)
    (fun error =>
       console_error "Failed to create comment:" error ;;
       ret (Failure "Failed to create comment")).

Definition deletePost_body (postId : string) : M (Result unit) :=
  userId <- getDbUserId ;;
  post <- Prisma.post_findUnique postId ;;
  match post with
  | None => throw (JsError "Post not found")
  | Some post =>
      if strict_neq (sel_authorId post) userId
      then throw (JsError "Unauthorized - no delete permission")
      else
        discard (Prisma.post_delete postId) ;;
        revalidatePath "/" ;;
        ret (Success tt)
  end.

Definition deletePost (postId : string) : M (Result unit) :=
  try_catch (deletePost_body postId)
    (fun error =>
       console_error "Failed to delete post:" error ;;
       ret (Failure "Failed to delete post")).

(** ** Vocabulary of the statements *)

(** The world after one more console line. *)
Definition logged (level : LogLevel) (label : string) (e : thrown) (w : World) : World :=
  with_console (console w ++ [mkLog level label e]) w.

(** An action fails soft at [w]: it resolves, and when its [try] block
    throws [e] it resolves with the failure envelope of text [message e]
    after logging [e]; when the block resolves, so does the action, with
    the same value. *)
Definition fails_soft {A : Type} (label : string) (message : thrown -> string)
    (body action : M (Result A)) (w : World) : Prop :=
  (exists (r : Result A) (w' : World), action w = (inr r, w')) /\
  match body w with
  | (inl e, w1) => action w = (inr (Failure (message e)), logged LevelError label e w1)
  | (inr r, w1) => action w = (inr r, w1)
  end.

(** An action lets a failure through at [w]: when its [try] block throws
    it rejects, with the fixed error [generic]. *)
Definition raises_generic {A : Type} (label : string) (generic : thrown)
    (body action : M A) (w : World) : Prop :=
  match body w with
  | (inl e, w1) => action w = (inl generic, logged LevelLog label e w1)
  | (inr r, w1) => action w = (inr r, w1)
  end.

(** The notification a like by [u] on the post [postId] of [author]
    calls for. *)
Definition is_like_notification (author u postId : string) (n : Notification) : Prop :=
  notification_type n = LIKE /\
  notification_userId n = author /\
  notification_creatorId n = u /\
  notification_postId n = Some postId /\
  notification_commentId n = None.

(** The notification a comment [commentId] by [u] on the post [postId]
    of [author] calls for. *)
Definition is_comment_notification (author u postId commentId : string)
    (n : Notification) : Prop :=
  notification_type n = COMMENT /\
  notification_userId n = author /\
  notification_creatorId n = u /\
  notification_postId n = Some postId /\
  notification_commentId n = Some commentId.

(** No collaborator call is planned to throw. *)
Definition no_fault (plan : list (option thrown)) : Prop :=
  forall e : thrown, ~ In (Some e) plan.

(** The notification rows an action by [u] on a post of [author] adds:
    [n] when the two differ, none otherwise. *)
Definition due_notification (author u : string) (n : Notification) : list Notification :=
  if strict_neq author (Some u) then [n] else [].

(** How many Like rows the pair has. *)
Definition count_likes (u postId : string) (d : Db) : nat :=
  length (filter (Prisma.like_has_key u postId) (likes d)).

(** [n] invocations of [toggleLike(postId)] in strict sequence, each one
    resolving with [{ success: true }]; [None] when one of them does not. *)
Fixpoint toggles (n : nat) (postId : string) (w : World) : option World :=
  match n with
  | O => Some w
  | S k =>
      match toggleLike postId w with
      | (inr (Success _), w1) => toggles k postId w1
      | _ => None
      end
  end.

(** Posts from the newest to the oldest, comments from the oldest to the
    newest. *)
Definition newest_first (rows : list PostWithRelations) : Prop :=
  StronglySorted
    (fun a b => (post_createdAt (pwr_post b) <= post_createdAt (pwr_post a))%Z) rows.

Definition oldest_first (cs : list CommentWithAuthor) : Prop :=
  StronglySorted
    (fun a b => (comment_createdAt (cwa_comment a) <= comment_createdAt (cwa_comment b))%Z) cs.

(** The foreign keys [Post.authorId] and [Comment.authorId] point to
    users of the store. *)
Definition authors_exist (d : Db) : Prop :=
  (forall p, In p (posts d) ->
             exists u, In u (users d) /\ user_id u = post_authorId p) /\
  (forall c, In c (comments d) ->
             exists u, In u (users d) /\ user_id u = comment_authorId c).

(** [a] is the summary (id, name, image, username) of the user [u]. *)
Definition is_summary_of (u : User) (a : AuthorSummary) : Prop :=
  author_id a = user_id u /\
  author_name a = user_name u /\
  author_image a = user_image u /\
  author_username a = user_username u.

(** What a row of [getPosts] carries besides the post, in terms of the
    store alone: the summary of the user who wrote the post; the
    comments on the post, all of them, the oldest first, each with the
    summary of the user who wrote it; the user identifiers of the likes
    of the post, in the order of the store; and their number. *)
Definition enriched (d : Db) (row : PostWithRelations) : Prop :=
  (exists u : User,
      In u (users d) /\ user_id u = post_authorId (pwr_post row) /\
      is_summary_of u (pwr_author row)) /\
  Permutation (map cwa_comment (pwr_comments row))
    (filter (fun c => comment_postId c =? post_id (pwr_post row)) (comments d)) /\
  oldest_first (pwr_comments row) /\
  Forall (fun c =>
            exists u : User,
              In u (users d) /\ user_id u = comment_authorId (cwa_comment c) /\
              is_summary_of u (cwa_author c))
    (pwr_comments row) /\
  map lu_userId (pwr_likes row) =
    map like_userId (filter (fun l => like_postId l =? post_id (pwr_post row)) (likes d)) /\
  pwr_count_likes row =
    length (filter (fun l => like_postId l =? post_id (pwr_post row)) (likes d)).

(** The same row as the client assembles it, from its own lookups. *)
Definition assembled (d : Db) (row : PostWithRelations) : Prop :=
  option_map (Prisma.select_user (Prisma.mkUserSelect true true true true))
    (Prisma.find_user (post_authorId (pwr_post row)) d) =
    Some (pwr_author row) /\
  Permutation (map cwa_comment (pwr_comments row)) (Prisma.comments_of d (pwr_post row)) /\
  oldest_first (pwr_comments row) /\
  Forall (fun c =>
            option_map (Prisma.select_user (Prisma.mkUserSelect true true true true))
              (Prisma.find_user (comment_authorId (cwa_comment c)) d) =
            Some (cwa_author c))
    (pwr_comments row) /\
  pwr_likes row =
    map (fun l => mkLikeUserId (like_userId l)) (Prisma.likes_of d (pwr_post row)) /\
  pwr_count_likes row = length (pwr_likes row).

(** ** Sample worlds *)

Module Sample.

Definition alice : User := mkUser "u1" "alice" (Some "Alice") None.
Definition bob : User := mkUser "u2" "bob" None None.

Definition p1 : Post := mkPost "p1" "hello" None 10 "u1".
Definition p2 : Post := mkPost "p2" "world" (Some "img") 20 "u2".

Definition k1 : Comment := mkComment "k1" "second" "u2" "p1" 17.
Definition k2 : Comment := mkComment "k2" "first" "u1" "p1" 15.

Definition store : Db := mkDb [alice; bob] [p1; p2] [k1; k2] [] [].

(** A request of the given session against [store], with the given
    plan of collaborator failures. *)
Definition world (s : option string) (plan : list (option thrown)) : World :=
  mkWorld store s plan 0 100 [] [].

End Sample.

(** ** Vocabulary of the further statements *)

(** The routes a result leaves marked stale: the home feed after a
    success envelope, nothing otherwise. *)
Definition invalidated {A : Type} (r : thrown + Result A) : list string :=
  match r with
  | inr (Success _) => ["/"]
  | _ => []
  end.

(** At most one Like row for every pair (user, post). *)
Definition likes_unique (d : Db) : Prop :=
  forall u postId : string, count_likes u postId d <= 1.

(** No notification is addressed to the one who caused it. *)
Definition no_self_notification (d : Db) : Prop :=
  Forall (fun n => notification_userId n <> notification_creatorId n) (notifications d).

(** The summary [createPost] returns for a stored post. *)
Definition summary_of (p : Post) : PostSummary :=
  mkPostSummary (post_id p) (post_content p) (post_image p)
    (post_createdAt p) (post_authorId p).

(** ** The profile page *)


Section ProfilePage.

(** The actions of [profile.action] are not among the sources.  The
    page is embedded over any lookup [getProfileByUsername], over any
    type of profile, of post list and of follow state, and over the
    awaited whole
    [Promise.all([getUserPosts(a), getUserLikedPosts(b), isFollowing(c)])]:
    the three calls run together, and in which order they reach their
    collaborators and settle is not for the page to say, so what the
    page awaits is one parameter, given the argument of each call. *)
Variables ProfileUser PostList Following : Type.
Variable profile_id : ProfileUser -> string.
Variable getProfileByUsername : string -> M (option ProfileUser).
Variable fetched_together : string -> string -> string -> M (PostList * PostList * Following).



End ProfilePage.

(** ** Further sample worlds *)

Module Examples.

(** The sample store after ["u2"] liked ["p1"]. *)
Definition liked_store : Db :=
  mkDb [Sample.alice; Sample.bob] [Sample.p1; Sample.p2] [Sample.k1; Sample.k2]
    [mkLike "u2" "p1"]
    [mkNotification "n1" LIKE "u1" "u2" (Some "p1") None 90].

Definition liked_world (s : option string) (plan : list (option thrown)) : World :=
  mkWorld liked_store s plan 0 100 [] [].



End Examples.

(** ** Generic facts about the monad and the collaborators *)

Local Open Scope list_scope.

Lemma bind_resolved {A B : Type} (m : M A) (k : A -> M B) (w w1 : World) (a : A) :
  m w = (inr a, w1) -> bind m k w = k a w1.
Proof. intros H. unfold bind. rewrite H. reflexivity. Qed.

Lemma try_catch_resolved {A : Type} (m : M A) (h : thrown -> M A) (w w1 : World) (a : A) :
  m w = (inr a, w1) -> try_catch m h w = (inr a, w1).
Proof. intros H. unfold try_catch. rewrite H. reflexivity. Qed.

Lemma getDbUserId_resolved (w w1 : World) (v : option string) :
  getDbUserId w = (inr v, w1) ->
  v = session w /\ db w1 = db w /\ console w1 = console w /\
  revalidated w1 = revalidated w /\ session w1 = session w.
Proof.
  unfold getDbUserId, bind, external.
  destruct (faults w) as [|[e|] rest]; intros H; inversion H; subst; cbn; auto.
Qed.

(** ** Facts about the JavaScript tests *)

Lemma strict_neq_false (a : string) (u : option string) :
  strict_neq a u = false <-> u = Some a.
Proof.
  destruct u as [s|]; cbn.
  - rewrite negb_false_iff, String.eqb_eq. split; congruence.
  - split; discriminate.
Qed.

Lemma strict_neq_true (a : string) (u : option string) :
  strict_neq a u = true <-> u <> Some a.
Proof.
  rewrite <- not_false_iff_true, strict_neq_false. tauto.
Qed.

Lemma strict_neq_refl (a : string) : strict_neq a (Some a) = false.
Proof. apply strict_neq_false. reflexivity. Qed.

Lemma find_filter_negb {A : Type} (f : A -> bool) (l : list A) :
  find f (filter (fun x => negb (f x)) l) = None.
Proof.
  induction l as [|x l IH]; cbn; [reflexivity|].
  destruct (f x) eqn:E; cbn; [assumption|].
  rewrite E. assumption.
Qed.

(** ** Proof automation for runs of an action *)

Ltac open_world w :=
  destruct w as [d s plan nid clk out marks];
  cbn [db session faults next_id clock console revalidated] in *.

Ltac unfold_run :=
  unfold createPost, createPost_body, getPosts, getPosts_body,
    toggleLike, toggleLike_body, createComment, createComment_body,
    deletePost, deletePost_body, discard,
    Prisma.post_findMany, Prisma.post_create, Prisma.post_findUnique,
    Prisma.post_delete, Prisma.like_findUnique, Prisma.like_delete,
    Prisma.like_create, Prisma.notification_create, Prisma.comment_create,
    Prisma.transaction_batch, Prisma.transaction,
    getDbUserId, revalidatePath, console_error, console_log,
    cuid, now, external, get_db, put_db, try_catch, bind, ret, throw.

Ltac plan_step :=
  match goal with
  | |- context [match ?l with [] => _ | _ :: _ => _ end] =>
      is_var l; destruct l as [|[?|] ?]
  end.

Ltac simpl_run :=
  unfold bind, ret, throw;
  cbn [db session faults next_id clock console revalidated
       with_db with_faults with_next_id with_clock with_console with_revalidated
       option_map sel_authorId fst snd app Prisma.in_order truthy];
  unfold bind, ret, throw;
  cbn [db session faults next_id clock console revalidated
       with_db with_faults with_next_id with_clock with_console with_revalidated
       fst snd].

Ltac run_plan :=
  unfold_run; repeat (simpl_run; plan_step); simpl_run.

(** The same, rewriting with the fact [H] about a lookup on the way. *)
Ltac run_plan_with H :=
  unfold_run; repeat (simpl_run; first [plan_step | rewrite H]); simpl_run.

(** One more case split on whatever test blocks the run: a lookup whose
    result is already known, the plan, a boolean test, an optional row. *)
Ltac run_case :=
  match goal with
  | |- context [strict_neq ?a (Some ?a)] => rewrite (strict_neq_refl a)
  | H : Prisma.find_post _ _ = _ |- _ => progress rewrite H
  | H : Prisma.find_like _ _ _ = _ |- _ => progress rewrite H
  | H : ?x = _ |- context [match ?x with _ => _ end] => rewrite H
  | |- context [match ?l with [] => _ | _ :: _ => _ end] =>
      is_var l; destruct l as [|[?|] ?]
  | |- context [if ?b then _ else _] => destruct b eqn:?
  | |- context [match ?x with Some _ => _ | None => _ end] => destruct x eqn:?
  end.

Ltac run_cases := unfold_run; repeat (simpl_run; run_case); simpl_run.

(** A case that the plan or the ownership test rules out. *)
Ltac absurd_author :=
  match goal with
  | H : strict_neq ?a (Some ?u) = false, N : ?u <> ?a |- _ =>
      apply strict_neq_false in H; congruence
  | H : strict_neq ?a (Some ?u) = true, N : ?a = ?u |- _ =>
      apply strict_neq_true in H; congruence
  end.

Ltac absurd_plan :=
  match goal with
  | H : no_fault _ |- _ => solve [exfalso; eapply H; cbn; eauto 10]
  end.

(** ** Atomic writes *)

Lemma toggleLike_all_or_nothing (w : World) (postId u : string) (p : Post)
    (Hpost : Prisma.find_post postId (db w) = Some p)
    (Hu : session w = Some u)
    (Hnone : Prisma.find_like u postId (db w) = None) :
  db (snd (toggleLike postId w)) = db w \/
  exists n : Notification,
    is_like_notification (post_authorId p) u postId n /\
    db (snd (toggleLike postId w)) =
      set_notifications (notifications (db w) ++ due_notification (post_authorId p) u n)
        (set_likes (likes (db w) ++ [mkLike u postId]) (db w)).
Proof.
  open_world w. subst. unfold due_notification.
  run_cases; try (left; reflexivity).
  all: right;
    exists (mkNotification ("c" ++ NilEmpty.string_of_uint (Nat.to_uint nid))%string
              LIKE (post_authorId p) u (Some postId) None clk);
    split; [repeat split; reflexivity|].
  all: unfold set_notifications, set_likes; cbn; rewrite ?app_nil_r; reflexivity.
Qed.

Lemma createComment_all_or_nothing (w : World) (postId content u : string) (p : Post)
    (Hpost : Prisma.find_post postId (db w) = Some p)
    (Hu : session w = Some u) :
  db (snd (createComment postId content w)) = db w \/
  exists (c : Comment) (n : Notification),
    comment_content c = content /\ comment_authorId c = u /\ comment_postId c = postId /\
    is_comment_notification (post_authorId p) u postId (comment_id c) n /\
    db (snd (createComment postId content w)) =
      set_notifications (notifications (db w) ++ due_notification (post_authorId p) u n)
        (set_comments (comments (db w) ++ [c]) (db w)).
Proof.
  open_world w. subst. unfold due_notification.
  run_cases; try (left; reflexivity).
  all: right;
    exists (mkComment ("c" ++ NilEmpty.string_of_uint (Nat.to_uint nid))%string
              content u postId clk);
    exists (mkNotification ("c" ++ NilEmpty.string_of_uint (Nat.to_uint (S nid)))%string
              COMMENT (post_authorId p) u (Some postId)
              (Some ("c" ++ NilEmpty.string_of_uint (Nat.to_uint nid))%string)
              (clk + 1)%Z);
    (repeat (split; [reflexivity|])); split; [repeat split; reflexivity|].
  all: unfold set_notifications, set_comments; cbn; rewrite ?app_nil_r; reflexivity.
Qed.

(** C1. The Like row and the Notification row of a like, and the Comment
    row and the Notification row of a comment, are written all or
    nothing.  Whatever collaborator call throws, after [toggleLike] on a
    post the actor has not liked the store is either exactly as before,
    or it has gained the Like together with the notification due for it
    (one when the actor is not the author, none otherwise); after
    [createComment] it is either exactly as before, or it has gained the
    Comment together with the notification due for it, which carries the
    comment's identifier.  No other store is reachable. *)
Theorem like_and_comment_writes_are_atomic
    (w : World) (postId u : string) (p : Post)
    (Hpost : Prisma.find_post postId (db w) = Some p)
    (Hu : session w = Some u) :
  (Prisma.find_like u postId (db w) = None ->
   db (snd (toggleLike postId w)) = db w \/
   exists n : Notification,
     is_like_notification (post_authorId p) u postId n /\
     db (snd (toggleLike postId w)) =
       set_notifications (notifications (db w) ++ due_notification (post_authorId p) u n)
         (set_likes (likes (db w) ++ [mkLike u postId]) (db w))) /\
  (forall content,
   db (snd (createComment postId content w)) = db w \/
   exists (c : Comment) (n : Notification),
     comment_content c = content /\ comment_authorId c = u /\ comment_postId c = postId /\
     is_comment_notification (post_authorId p) u postId (comment_id c) n /\
     db (snd (createComment postId content w)) =
       set_notifications (notifications (db w) ++ due_notification (post_authorId p) u n)
         (set_comments (comments (db w) ++ [c]) (db w))).
Proof.
  split.
  - intros Hnone. eapply toggleLike_all_or_nothing; eassumption.
  - intros content. eapply createComment_all_or_nothing; eassumption.
Qed.

(** The notification insert of a like throws after the like insert went
    through, and the commit of a comment's transaction throws after both
    inserts went through: the theorem leaves two stores, and the run
    shows it is the unchanged one. *)
Lemma like_and_comment_writes_are_atomic_witness :
  let w := Sample.world (Some "u2") [None; None; None; None; Some (JsError "deadlock")] in
  Prisma.find_post "p1" (db w) = Some Sample.p1 /\
  session w = Some "u2" /\
  Prisma.find_like "u2" "p1" (db w) = None /\
  (db (snd (toggleLike "p1" w)) = db w \/
   exists n : Notification,
     is_like_notification "u1" "u2" "p1" n /\
     db (snd (toggleLike "p1" w)) =
       set_notifications (notifications (db w) ++ due_notification "u1" "u2" n)
         (set_likes (likes (db w) ++ [mkLike "u2" "p1"]) (db w))) /\
  db (snd (toggleLike "p1" w)) = Sample.store /\
  db (snd (createComment "p1" "nice" w)) = Sample.store.
Proof.
  intros w.
  split; [reflexivity|]. split; [reflexivity|]. split; [reflexivity|].
  split; [|split; reflexivity].
  exact (proj1 (like_and_comment_writes_are_atomic w "p1" "u2" Sample.p1 eq_refl eq_refl)
           eq_refl).
Defined.

(** ** Notifications *)

Lemma own_post_toggleLike (w : World) (postId : string) (p : Post)
    (Hpost : Prisma.find_post postId (db w) = Some p)
    (Hu : session w = Some (post_authorId p)) :
  notifications (db (snd (toggleLike postId w))) = notifications (db w).
Proof.
  open_world w. subst. run_cases; reflexivity.
Qed.

Lemma own_post_createComment (w : World) (postId content : string) (p : Post)
    (Hpost : Prisma.find_post postId (db w) = Some p)
    (Hu : session w = Some (post_authorId p)) :
  notifications (db (snd (createComment postId content w))) = notifications (db w).
Proof.
  open_world w. subst. run_cases; reflexivity.
Qed.

Lemma like_from_none_notifies (w w' : World) (postId u : string) (p : Post)
    (Hpost : Prisma.find_post postId (db w) = Some p)
    (Hu : session w = Some u)
    (Hother : u <> post_authorId p)
    (Hnone : Prisma.find_like u postId (db w) = None) :
  toggleLike postId w = (inr (Success tt), w') ->
  exists n : Notification,
    is_like_notification (post_authorId p) u postId n /\
    notifications (db w') = notifications (db w) ++ [n] /\
    likes (db w') = likes (db w) ++ [mkLike u postId].
Proof.
  open_world w. subst. run_cases; intros H; inversion H; subst; clear H;
    try absurd_author.
  all: eexists; unfold is_like_notification; cbn; repeat split; reflexivity.
Qed.

Lemma like_from_none_succeeds (w : World) (postId u : string) (p : Post)
    (Hpost : Prisma.find_post postId (db w) = Some p)
    (Hu : session w = Some u)
    (Hid : u <> "")
    (Hnone : Prisma.find_like u postId (db w) = None)
    (Hplan : no_fault (faults w)) :
  exists w', toggleLike postId w = (inr (Success tt), w').
Proof.
  open_world w. subst. run_cases; try absurd_plan; try (eexists; reflexivity).
  all: match goal with H : (_ =? "") = true |- _ => apply String.eqb_eq in H; contradiction end.
Qed.

Lemma comment_notifies (w w' : World) (postId content u : string) (p : Post) (c : Comment)
    (Hpost : Prisma.find_post postId (db w) = Some p)
    (Hu : session w = Some u)
    (Hother : u <> post_authorId p) :
  createComment postId content w = (inr (Success c), w') ->
  comment_content c = content /\ comment_authorId c = u /\ comment_postId c = postId /\
  comments (db w') = comments (db w) ++ [c] /\
  exists n : Notification,
    is_comment_notification (post_authorId p) u postId (comment_id c) n /\
    notifications (db w') = notifications (db w) ++ [n].
Proof.
  open_world w. subst. run_cases; intros H; inversion H; subst; clear H;
    try absurd_author.
  all: cbn; repeat split; eexists; unfold is_comment_notification; cbn; repeat split; reflexivity.
Qed.

Lemma own_comment_written (w w' : World) (postId content : string) (p : Post) (c : Comment)
    (Hpost : Prisma.find_post postId (db w) = Some p)
    (Hu : session w = Some (post_authorId p)) :
  createComment postId content w = (inr (Success c), w') ->
  comments (db w') = comments (db w) ++ [c].
Proof.
  open_world w. subst. run_cases; intros H; inversion H; subst; clear H; reflexivity.
Qed.

Lemma comment_succeeds (w : World) (postId content u : string) (p : Post)
    (Hpost : Prisma.find_post postId (db w) = Some p)
    (Hu : session w = Some u)
    (Hid : u <> "") (Hcontent : content <> "")
    (Hplan : no_fault (faults w)) :
  exists c w', createComment postId content w = (inr (Success c), w').
Proof.
  open_world w. subst. run_cases; try absurd_plan; try (eexists; eexists; reflexivity).
  all: match goal with H : (_ =? "") = true |- _ => apply String.eqb_eq in H; contradiction end.
Qed.

(** C2. For a post [p] and an actor [u].  When [u] is the author of
    [p], neither [toggleLike] nor [createComment] adds a Notification (and
    a successful [createComment] still adds its Comment).  When [u] is
    not the author, a successful [toggleLike] that found no Like adds
    exactly one Notification, of kind [LIKE], addressed to the author,
    with creator [u]; and a successful [createComment] adds exactly one
    Comment and exactly one Notification, of kind [COMMENT], addressed to
    the author, whose [commentId] is the identifier of the new comment.
    Both actions do succeed when no collaborator call throws. *)
Theorem notification_only_for_others
    (w : World) (postId u : string) (p : Post)
    (Hpost : Prisma.find_post postId (db w) = Some p)
    (Hu : session w = Some u) :
  (u = post_authorId p ->
   notifications (db (snd (toggleLike postId w))) = notifications (db w) /\
   forall content,
     notifications (db (snd (createComment postId content w))) = notifications (db w) /\
     forall c w',
       createComment postId content w = (inr (Success c), w') ->
       comments (db w') = comments (db w) ++ [c]) /\
  (u <> post_authorId p ->
   (Prisma.find_like u postId (db w) = None ->
    forall w',
      toggleLike postId w = (inr (Success tt), w') ->
      exists n : Notification,
        is_like_notification (post_authorId p) u postId n /\
        notifications (db w') = notifications (db w) ++ [n] /\
        likes (db w') = likes (db w) ++ [mkLike u postId]) /\
   (forall content c w',
      createComment postId content w = (inr (Success c), w') ->
      comment_content c = content /\ comment_authorId c = u /\
      comment_postId c = postId /\
      comments (db w') = comments (db w) ++ [c] /\
      exists n : Notification,
        is_comment_notification (post_authorId p) u postId (comment_id c) n /\
        notifications (db w') = notifications (db w) ++ [n])) /\
  (u <> "" -> no_fault (faults w) ->
   (Prisma.find_like u postId (db w) = None ->
    exists w', toggleLike postId w = (inr (Success tt), w')) /\
   (forall content, content <> "" ->
    exists c w', createComment postId content w = (inr (Success c), w'))).
Proof.
  split; [|split].
  - intros ->. split; [|split].
    + eapply own_post_toggleLike; eassumption.
    + eapply own_post_createComment; eassumption.
    + intros c w'. eapply own_comment_written; eassumption.
  - intros Hother. split.
    + intros Hnone w'. eapply like_from_none_notifies; eassumption.
    + intros content c w'. eapply comment_notifies; eassumption.
  - intros Hid Hplan. split.
    + intros Hnone. eapply like_from_none_succeeds; eassumption.
    + intros content Hcontent. eapply comment_succeeds; eassumption.
Qed.

Lemma notification_only_for_others_witness :
  let w := Sample.world (Some "u2") [] in
  Prisma.find_post "p1" (db w) = Some Sample.p1 /\
  session w = Some "u2" /\
  exists n : Notification,
    is_like_notification "u1" "u2" "p1" n /\
    notifications (db (snd (toggleLike "p1" w))) = [n].
Proof.
  intros w.
  split; [reflexivity|]. split; [reflexivity|].
  destruct (notification_only_for_others w "p1" "u2" Sample.p1 eq_refl eq_refl)
    as (_ & Hother & _).
  destruct Hother as [Hlike _]; [cbn; discriminate|].
  destruct (Hlike eq_refl (snd (toggleLike "p1" w)) eq_refl) as (n & Hn & Hnotif & _).
  exists n. split; [exact Hn | exact Hnotif].
Defined.

(** ** Deleting a post *)

(** C3, as the code has it.  On an existing post, [deletePost] resolves
    with [{ success: true }] only when the resolved identity is the
    post's author, and then the post is gone; it does so whenever the
    identity is the author and none of its four collaborator calls
    throws.  When the identity is not the author the store is left
    unchanged and the result is the fixed envelope
    [{ success: false, error: "Failed to delete post" }]; the
    authorization error is what the [catch] logs when the two calls
    before the check went through. *)
Theorem deletePost_ownership
    (w : World) (postId : string) (p : Post)
    (Hpost : Prisma.find_post postId (db w) = Some p) :
  exists (w' : World) (r : Result unit),
    deletePost postId w = (inr r, w') /\
    (r = Success tt ->
     session w = Some (post_authorId p) /\
     Prisma.find_post postId (db w') = None) /\
    (session w = Some (post_authorId p) ->
     no_fault (firstn 4 (faults w)) ->
     r = Success tt) /\
    (session w <> Some (post_authorId p) ->
     r = Failure "Failed to delete post" /\
     db w' = db w /\
     exists e : thrown,
       console w' = console w ++ [mkLog LevelError "Failed to delete post:" e] /\
       (no_fault (firstn 2 (faults w)) ->
        e = JsError "Unauthorized - no delete permission")).
Proof.
  open_world w.
  assert (Hgone : forall us cs ls ns,
             Prisma.find_post postId
               (mkDb us (filter (fun q => negb (Prisma.post_has_id postId q)) (posts d))
                  cs ls ns) = None)
    by (intros; apply find_filter_negb).
  run_plan_with Hpost;
    try (destruct (strict_neq (post_authorId p) s) eqn:Hs;
         [apply strict_neq_true in Hs | apply strict_neq_false in Hs];
         run_plan_with Hpost);
    eexists; eexists; (split; [reflexivity|]);
    (split; [intros Hr; try discriminate Hr; (split; [assumption | apply Hgone]) |]);
    (split; [intros Ha Hplan; try reflexivity; try contradiction; absurd_plan |]);
    intros Hne; try contradiction;
    (split; [reflexivity|]); (split; [reflexivity|]);
    eexists; (split; [reflexivity|]);
    intros Hplan; try reflexivity; absurd_plan.
Qed.

Lemma deletePost_ownership_witness :
  let w := Sample.world (Some "u1") [] in
  Prisma.find_post "p1" (db w) = Some Sample.p1 /\
  fst (deletePost "p1" w) = inr (Success tt) /\
  exists (w' : World) (r : Result unit),
    deletePost "p1" w = (inr r, w') /\
    (r = Success tt ->
     session w = Some (post_authorId Sample.p1) /\
     Prisma.find_post "p1" (db w') = None) /\
    (session w = Some (post_authorId Sample.p1) ->
     no_fault (firstn 4 (faults w)) ->
     r = Success tt) /\
    (session w <> Some (post_authorId Sample.p1) ->
     r = Failure "Failed to delete post" /\
     db w' = db w /\
     exists e : thrown,
       console w' = console w ++ [mkLog LevelError "Failed to delete post:" e] /\
       (no_fault (firstn 2 (faults w)) ->
        e = JsError "Unauthorized - no delete permission")).
Proof.
  intros w. split; [reflexivity|]. split; [reflexivity|].
  exact (deletePost_ownership w "p1" Sample.p1 eq_refl).
Defined.

(** C3 as stated fails.  The author of ["p1"] deletes it while the
    database rejects the delete: the identity equals the author and the
    result is not a success envelope.  And for a caller who is not the
    author the envelope is the one a missing post gets: it carries no
    authorization error. *)
Lemma deletePost_counterexample :
  Prisma.find_post "p1" Sample.store = Some Sample.p1 /\
  post_authorId Sample.p1 = "u1" /\
  fst (deletePost "p1"
         (Sample.world (Some "u1") [None; None; Some (JsError "Connection lost")])) =
    inr (Failure "Failed to delete post") /\
  fst (deletePost "p1" (Sample.world (Some "u2") [])) =
    inr (Failure "Failed to delete post") /\
  fst (deletePost "p9" (Sample.world (Some "u2") [])) =
    inr (Failure "Failed to delete post") /\
  fst (deletePost "p1" (Sample.world (Some "u2") [])) <>
    inr (Failure "Unauthorized - no delete permission").
Proof.
  repeat split; try reflexivity. cbn. discriminate.
Qed.

(** ** Toggling *)

Lemma like_has_key_refl (u postId : string) :
  Prisma.like_has_key u postId (mkLike u postId) = true.
Proof. unfold Prisma.like_has_key. cbn. rewrite !String.eqb_refl. reflexivity. Qed.

Lemma find_none_filter {A : Type} (f : A -> bool) (l : list A) :
  find f l = None <-> filter f l = [].
Proof.
  induction l as [|x l IH]; cbn; [tauto|].
  destruct (f x); [split; discriminate | exact IH].
Qed.

Lemma filter_filter_negb {A : Type} (f : A -> bool) (l : list A) :
  filter f (filter (fun x => negb (f x)) l) = [].
Proof. apply find_none_filter, find_filter_negb. Qed.

Lemma find_like_count (u postId : string) (d : Db) :
  Prisma.find_like u postId d = None <-> count_likes u postId d = 0.
Proof.
  unfold Prisma.find_like, count_likes. rewrite find_none_filter.
  destruct (filter _ _); cbn; split; congruence.
Qed.

Lemma count_likes_created (u postId : string) (d : Db) (ns : list Notification) :
  count_likes u postId
    (set_notifications ns (set_likes (likes d ++ [mkLike u postId]) d)) =
  S (count_likes u postId d).
Proof.
  unfold count_likes. cbn. rewrite filter_app, length_app. cbn.
  rewrite like_has_key_refl. cbn. lia.
Qed.

Lemma count_likes_deleted (u postId : string) (d : Db) :
  count_likes u postId
    (set_likes (filter (fun k => negb (Prisma.like_has_key u postId k)) (likes d)) d) = 0.
Proof. unfold count_likes. cbn. rewrite filter_filter_negb. reflexivity. Qed.

Lemma toggleLike_flips (w w' : World) (postId u : string)
    (Hu : session w = Some u) :
  toggleLike postId w = (inr (Success tt), w') ->
  session w' = Some u /\
  posts (db w') = posts (db w) /\
  (Prisma.find_like u postId (db w) = None ->
   count_likes u postId (db w') = S (count_likes u postId (db w))) /\
  (Prisma.find_like u postId (db w) <> None -> count_likes u postId (db w') = 0).
Proof.
  open_world w. subst.
  run_cases; intros H; inversion H; subst; clear H; cbn [session db].
  all: repeat split; try reflexivity; try congruence; intros _.
  all: try apply count_likes_deleted.
  all: try apply (count_likes_created u postId d).
  all: try apply (count_likes_created u postId d (notifications d)).
Qed.

Lemma toggleLike_succeeds (w : World) (postId u : string) (p : Post)
    (Hu : session w = Some u) (Hid : u <> "")
    (Hpost : Prisma.find_post postId (db w) = Some p)
    (Hplan : no_fault (faults w)) :
  exists w1, toggleLike postId w = (inr (Success tt), w1) /\ no_fault (faults w1).
Proof.
  open_world w. subst.
  run_cases; try absurd_plan;
    try (match goal with
         | H : (_ =? "") = true |- _ => apply String.eqb_eq in H; contradiction
         end).
  all: eexists; (split; [reflexivity|]); cbn [faults];
    intros e He; apply (Hplan e); cbn; auto 10.
Qed.

Lemma toggles_count (n : nat) :
  forall (w w' : World) (postId u : string),
    session w = Some u ->
    count_likes u postId (db w) <= 1 ->
    toggles n postId w = Some w' ->
    count_likes u postId (db w') =
      if Nat.even n then count_likes u postId (db w)
      else 1 - count_likes u postId (db w).
Proof.
  induction n as [|n IH]; intros w w' postId u Hu Hle Hrun.
  - cbn in Hrun. inversion Hrun; subst. reflexivity.
  - cbn [toggles] in Hrun.
    destruct (toggleLike postId w) as [[e|[|[]|msg]] w1] eqn:Ht; try discriminate.
    destruct (toggleLike_flips w w1 postId u Hu Ht) as (Hs & _ & Hnone & Hsome).
    assert (Hc1 : count_likes u postId (db w1) = 1 - count_likes u postId (db w)).
    { destruct (Prisma.find_like u postId (db w)) as [l|] eqn:Hl.
      - rewrite Hsome by discriminate.
        assert (count_likes u postId (db w) <> 0)
          by (rewrite <- find_like_count; congruence).
        lia.
      - rewrite Hnone by reflexivity.
        apply find_like_count in Hl. lia. }
    rewrite (IH w1 w' postId u Hs) by (assumption || lia).
    rewrite Nat.even_succ, <- Nat.negb_even, Hc1.
    destruct (Nat.even n); cbn [negb]; lia.
Qed.

Lemma toggles_succeed (n : nat) :
  forall (w : World) (postId u : string) (p : Post),
    session w = Some u -> u <> "" ->
    Prisma.find_post postId (db w) = Some p ->
    no_fault (faults w) ->
    exists w', toggles n postId w = Some w'.
Proof.
  induction n as [|n IH]; intros w postId u p Hu Hid Hpost Hplan.
  - exists w. reflexivity.
  - destruct (toggleLike_succeeds w postId u p Hu Hid Hpost Hplan) as (w1 & Ht & Hplan1).
    destruct (toggleLike_flips w w1 postId u Hu Ht) as (Hs & Hposts & _).
    cbn [toggles]. rewrite Ht.
    apply (IH w1 postId u p); try assumption.
    unfold Prisma.find_post in *. rewrite Hposts. assumption.
Qed.

(** C4. A user [u] toggles the like of an existing post [n] times in
    strict sequence, starting with no Like row for the pair.  When every
    invocation succeeds the pair has one Like row if [n] is odd and none
    if [n] is even, so a Like exists exactly when [n] is odd; at no point
    of the sequence does the pair have more than one row.  And the
    sequence does succeed for a resolved identity when no collaborator
    call throws. *)
Theorem toggleLike_parity
    (n : nat) (w : World) (postId u : string) (p : Post)
    (Hu : session w = Some u)
    (Hpost : Prisma.find_post postId (db w) = Some p)
    (Hnone : Prisma.find_like u postId (db w) = None) :
  (forall w',
     toggles n postId w = Some w' ->
     count_likes u postId (db w') = (if Nat.odd n then 1 else 0) /\
     (Prisma.find_like u postId (db w') <> None <-> Nat.odd n = true)) /\
  (forall k wk,
     toggles k postId w = Some wk -> count_likes u postId (db wk) <= 1) /\
  (u <> "" -> no_fault (faults w) -> exists w', toggles n postId w = Some w').
Proof.
  pose proof (proj1 (find_like_count u postId (db w)) Hnone) as H0.
  assert (Hcount : forall k wk,
             toggles k postId w = Some wk ->
             count_likes u postId (db wk) = if Nat.odd k then 1 else 0).
  { intros k wk Hrun.
    rewrite (toggles_count k w wk postId u Hu) by (assumption || lia).
    rewrite H0, <- Nat.negb_even. destruct (Nat.even k); reflexivity. }
  split; [|split].
  - intros w' Hrun. split; [apply Hcount; assumption|].
    rewrite find_like_count, (Hcount n w' Hrun).
    destruct (Nat.odd n); split; (congruence || lia || tauto).
  - intros k wk Hrun. rewrite (Hcount k wk Hrun). destruct (Nat.odd k); lia.
  - intros Hid Hplan. eapply toggles_succeed; eassumption.
Qed.

Lemma toggleLike_parity_witness :
  let w := Sample.world (Some "u2") [] in
  session w = Some "u2" /\
  Prisma.find_post "p1" (db w) = Some Sample.p1 /\
  Prisma.find_like "u2" "p1" (db w) = None /\
  forall w',
    toggles 3 "p1" w = Some w' ->
    count_likes "u2" "p1" (db w') = 1 /\
    (Prisma.find_like "u2" "p1" (db w') <> None <-> Nat.odd 3 = true).
Proof.
  intros w. repeat (split; [reflexivity|]).
  exact (proj1 (toggleLike_parity 3 w "p1" "u2" Sample.p1 eq_refl eq_refl eq_refl)).
Defined.

Example three_toggles :
  option_map (fun w' => likes (db w')) (toggles 3 "p1" (Sample.world (Some "u2") [])) =
  Some [mkLike "u2" "p1"].
Proof. reflexivity. Qed.

(** ** Comments without content *)

(** C5, as the code has it.  [createComment(postId, "")] never writes:
    the store is left unchanged (no Comment, no Notification).  When the
    identity resolves to a user identifier it resolves with the fixed
    envelope [{ success: false, error: "Failed to create comment" }];
    when it resolves to none, with [undefined].  The validation error
    [Content is required] is what the [catch] logs when the identity
    resolver went through; it is not in the envelope.  The test is
    [!content], so only the empty string is refused. *)
Theorem createComment_empty_content (w : World) (postId : string) :
  exists (w' : World) (r : Result Comment),
    createComment postId "" w = (inr r, w') /\
    db w' = db w /\
    (r = Undefined /\ truthy (session w) = None /\ console w' = console w \/
     r = Failure "Failed to create comment" /\
     exists e : thrown,
       console w' = console w ++ [mkLog LevelError "Failed to create comment:" e] /\
       (no_fault (firstn 1 (faults w)) -> e = JsError "Content is required")) /\
    (truthy (session w) = None -> no_fault (firstn 1 (faults w)) -> r = Undefined).
Proof.
  open_world w.
  unfold createComment, createComment_body, getDbUserId.
  run_plan;
    try (destruct (truthy s) as [u|] eqn:Hu; run_plan);
    eexists; eexists; (split; [reflexivity|]); (split; [reflexivity|]);
    (split; [| intros Hs Hplan; try reflexivity; try discriminate Hs; absurd_plan]);
    try (left; repeat split; reflexivity);
    right; (split; [reflexivity|]); eexists; (split; [reflexivity|]);
    intros Hplan; try reflexivity; absurd_plan.
Qed.

Lemma createComment_empty_content_witness :
  let w := Sample.world (Some "u2") [] in
  fst (createComment "p1" "" w) = inr (Failure "Failed to create comment") /\
  exists (w' : World) (r : Result Comment),
    createComment "p1" "" w = (inr r, w') /\
    db w' = db w /\
    (r = Undefined /\ truthy (session w) = None /\ console w' = console w \/
     r = Failure "Failed to create comment" /\
     exists e : thrown,
       console w' = console w ++ [mkLog LevelError "Failed to create comment:" e] /\
       (no_fault (firstn 1 (faults w)) -> e = JsError "Content is required")) /\
    (truthy (session w) = None -> no_fault (firstn 1 (faults w)) -> r = Undefined).
Proof.
  intros w. split; [reflexivity|].
  exact (createComment_empty_content w "p1").
Defined.

(** C5 as stated fails: a comment of one blank is accepted, written
    together with its notification, and answered with a success
    envelope; and an empty comment in a request without identity is
    answered with no envelope at all. *)
Lemma createComment_blank_counterexample :
  let run := createComment "p1" " " (Sample.world (Some "u2") []) in
  let c := mkComment "c0" " " "u2" "p1" 100 in
  fst run = inr (Success c) /\
  comments (db (snd run)) = comments Sample.store ++ [c] /\
  notifications (db (snd run)) =
    [mkNotification "c1" COMMENT "u1" "u2" (Some "p1") (Some "c0") 101] /\
  fst (createComment "p1" "" (Sample.world None [])) = inr Undefined /\
  fst (createComment "p1" "" (Sample.world (Some "u2") [])) =
    inr (Failure "Failed to create comment").
Proof.
  cbv zeta. repeat split; reflexivity.
Qed.

(** ** Ordered queries *)

Section SortBy.

Variable A : Type.
Variable le : A -> A -> bool.

Lemma insert_by_perm (x : A) (l : list A) : Permutation (insert_by le x l) (x :: l).
Proof.
  induction l as [|y l IH]; cbn; [reflexivity|].
  destruct (le x y); [reflexivity|].
  rewrite IH. apply perm_swap.
Qed.

Lemma sort_by_perm (l : list A) : Permutation (sort_by le l) l.
Proof.
  induction l as [|x l IH]; cbn; [reflexivity|].
  rewrite insert_by_perm. constructor. exact IH.
Qed.

Hypothesis le_total : forall a b, le a b = true \/ le b a = true.
Hypothesis le_trans : forall a b c, le a b = true -> le b c = true -> le a c = true.

Let R (a b : A) : Prop := le a b = true.

Lemma insert_by_sorted (x : A) (l : list A) :
  StronglySorted R l -> StronglySorted R (insert_by le x l).
Proof.
  induction 1 as [|y l Hs IH Hy]; cbn.
  - repeat constructor.
  - destruct (le x y) eqn:Hxy.
    + constructor; [constructor; assumption|].
      constructor; [exact Hxy|].
      eapply Forall_impl; [|exact Hy].
      intros z Hz. exact (le_trans _ _ _ Hxy Hz).
    + constructor; [exact IH|].
      apply (Permutation_Forall (Permutation_sym (insert_by_perm x l))).
      constructor; [|exact Hy].
      destruct (le_total x y) as [H|H]; [congruence | exact H].
Qed.

Lemma sort_by_sorted (l : list A) : StronglySorted R (sort_by le l).
Proof.
  induction l as [|x l IH]; cbn; [constructor|].
  apply insert_by_sorted. exact IH.
Qed.

End SortBy.

Lemma order_le_total (o : SortOrder) (a b : Z) :
  order_le o a b = true \/ order_le o b a = true.
Proof. destruct o; cbn; lia. Qed.

Lemma order_le_trans (o : SortOrder) (a b c : Z) :
  order_le o a b = true -> order_le o b c = true -> order_le o a c = true.
Proof. destruct o; cbn; lia. Qed.

Lemma StronglySorted_map {A B : Type} (f : A -> B) (R : B -> B -> Prop) (l : list A) :
  StronglySorted R (map f l) -> StronglySorted (fun a b => R (f a) (f b)) l.
Proof.
  induction l as [|x l IH]; cbn; intros H; [constructor|].
  inversion H as [|? ? Hs Hx]; subst.
  constructor; [apply IH; exact Hs|].
  rewrite Forall_map in Hx. exact Hx.
Qed.

Lemma StronglySorted_weaken {A : Type} (R R' : A -> A -> Prop) (l : list A) :
  (forall a b, R a b -> R' a b) -> StronglySorted R l -> StronglySorted R' l.
Proof.
  intros HR. induction 1 as [|x l _ IH Hx]; constructor; [exact IH|].
  eapply Forall_impl; [|exact Hx]. intros b. apply HR.
Qed.

Lemma traverse_Forall2 {A B : Type} (f : A -> option B) (l : list A) :
  forall ys, traverse f l = Some ys -> Forall2 (fun x y => f x = Some y) l ys.
Proof.
  induction l as [|x l IH]; cbn; intros ys H.
  - inversion H. constructor.
  - destruct (f x) as [y|] eqn:Hx; [|discriminate].
    destruct (traverse f l) as [ys'|]; [|discriminate].
    inversion H; subst. constructor; auto.
Qed.

Lemma traverse_total {A B : Type} (f : A -> option B) (l : list A) :
  (forall x, In x l -> f x <> None) -> exists ys, traverse f l = Some ys.
Proof.
  induction l as [|x l IH]; cbn; intros H; [eauto|].
  destruct (f x) as [y|] eqn:Hx; [|exfalso; apply (H x); auto].
  destruct IH as [ys Hys]; [intros z Hz; apply H; auto|].
  rewrite Hys. eauto.
Qed.

Lemma Forall2_map_back {A B : Type} (g : B -> A) (l : list A) (ys : list B) :
  Forall2 (fun x y => g y = x) l ys -> map g ys = l.
Proof. induction 1; cbn; congruence. Qed.

Lemma find_user_In (id : string) (d : Db) (u : User) :
  Prisma.find_user id d = Some u -> In u (users d) /\ user_id u = id.
Proof.
  unfold Prisma.find_user. intros H. apply find_some in H.
  destruct H as [Hin Hid]. apply String.eqb_eq in Hid. auto.
Qed.

Lemma find_user_found (id : string) (d : Db) :
  (exists u, In u (users d) /\ user_id u = id) -> Prisma.find_user id d <> None.
Proof.
  intros (u & Hin & Hid) Hnone. unfold Prisma.find_user in Hnone.
  apply (find_none _ _ Hnone) in Hin. cbn in Hin.
  apply String.eqb_neq in Hin. contradiction.
Qed.

Lemma include_comment_spec (d : Db) (c : Comment) (row : CommentWithAuthor) :
  Prisma.include_comment
    (Prisma.mkCommentsArgs (Some (Prisma.mkUserSelect true true true true)) (Some asc))
    d c = Some row ->
  cwa_comment row = c /\
  option_map (Prisma.select_user (Prisma.mkUserSelect true true true true))
    (Prisma.find_user (comment_authorId c) d) =
    Some (cwa_author row).
Proof.
  unfold Prisma.include_comment. cbn.
  destruct (Prisma.find_user _ d) as [u|]; [|discriminate].
  cbn. intros H; inversion H; subst. cbn. auto.
Qed.

Lemma include_post_spec (d : Db) (p : Post) (row : PostWithRelations) :
  Prisma.include_post (Prisma.include getPosts_args) d p = Some row ->
  pwr_post row = p /\ assembled d row.
Proof.
  unfold Prisma.include_post, assembled. cbn.
  destruct (Prisma.find_user _ d) as [u|] eqn:Hu; [|discriminate].
  cbn.
  destruct (traverse _ _) as [cs|] eqn:Hcs; [|discriminate].
  intros H; inversion H; subst; clear H. cbn.
  rewrite Hu.
  apply traverse_Forall2 in Hcs.
  assert (Hmap : map cwa_comment cs =
                 sort_by (fun a b => order_le asc (comment_createdAt a) (comment_createdAt b))
                   (Prisma.comments_of d p)).
  { apply Forall2_map_back. eapply Forall2_impl; [|exact Hcs].
    intros c r Hr. apply include_comment_spec in Hr. tauto. }
  repeat split; try reflexivity.
  - rewrite Hmap. apply sort_by_perm.
  - unfold oldest_first.
    apply (StronglySorted_map cwa_comment
             (fun a b => (comment_createdAt a <= comment_createdAt b)%Z)).
    rewrite Hmap.
    eapply StronglySorted_weaken; [|apply sort_by_sorted].
    + intros a b Hab. cbn in Hab. lia.
    + intros a b. apply order_le_total.
    + intros a b c. apply order_le_trans.
  - clear Hmap. induction Hcs as [|c r l rs Hr _ IH]; constructor; [|exact IH].
    apply include_comment_spec in Hr. destruct Hr as [<- Hr]. exact Hr.
  - unfold pwr_likes. cbn. rewrite length_map. reflexivity.
Qed.

Lemma include_post_total (d : Db) (p : Post) :
  authors_exist d -> In p (posts d) ->
  Prisma.include_post (Prisma.include getPosts_args) d p <> None.
Proof.
  intros [Hposts Hcomments] Hp. unfold Prisma.include_post. cbn.
  destruct (Prisma.find_user (post_authorId p) d) as [u|] eqn:Hu;
    [|exfalso; exact (find_user_found _ _ (Hposts p Hp) Hu)].
  cbn.
  match goal with
  | |- context [traverse ?f ?l] => destruct (traverse_total f l) as [cs Hcs]
  end.
  - intros c Hc.
    apply (Permutation_in _ (sort_by_perm _ _ _)) in Hc.
    apply filter_In in Hc. destruct Hc as [Hc _].
    unfold Prisma.include_comment. cbn.
    destruct (Prisma.find_user (comment_authorId c) d) eqn:Hc';
      [discriminate | exfalso; exact (find_user_found _ _ (Hcomments c Hc) Hc')].
  - rewrite Hcs. discriminate.
Qed.

Lemma findMany_rows (d : Db) (rows : list PostWithRelations) :
  traverse (Prisma.include_post (Prisma.include getPosts_args) d)
    (Prisma.order_rows (Prisma.orderBy getPosts_args) post_createdAt (posts d)) =
    Some rows ->
  Permutation (map pwr_post rows) (posts d) /\
  newest_first rows /\
  Forall (assembled d) rows.
Proof.
  intros H. apply traverse_Forall2 in H. cbn in H.
  assert (Hmap : map pwr_post rows =
                 sort_by (fun a b => order_le desc (post_createdAt a) (post_createdAt b))
                   (posts d)).
  { apply Forall2_map_back. eapply Forall2_impl; [|exact H].
    intros p r Hr. apply include_post_spec in Hr. tauto. }
  split; [|split].
  - rewrite Hmap. apply sort_by_perm.
  - unfold newest_first.
    apply (StronglySorted_map pwr_post
             (fun a b => (post_createdAt b <= post_createdAt a)%Z)).
    rewrite Hmap.
    eapply StronglySorted_weaken; [|apply sort_by_sorted].
    + intros a b Hab. cbn in Hab. lia.
    + intros a b. apply order_le_total.
    + intros a b c. apply order_le_trans.
  - clear Hmap. induction H as [|p r l rs Hr _ IH]; constructor; [|exact IH].
    apply include_post_spec in Hr. tauto.
Qed.

Lemma summary_of_found (d : Db) (id : string) (a : AuthorSummary) :
  option_map (Prisma.select_user (Prisma.mkUserSelect true true true true))
    (Prisma.find_user id d) = Some a ->
  exists u : User, In u (users d) /\ user_id u = id /\ is_summary_of u a.
Proof.
  destruct (Prisma.find_user id d) as [u|] eqn:Hu; [|discriminate].
  cbn. intros H; inversion H; subst; clear H.
  apply find_user_In in Hu. destruct Hu as [Hin Hid].
  exists u. repeat split; assumption || reflexivity.
Qed.

Lemma assembled_enriched (d : Db) (row : PostWithRelations) :
  assembled d row -> enriched d row.
Proof.
  intros (Hauthor & Hcs & Hsorted & Hcauthors & Hlikes & Hcount).
  unfold enriched. split; [|split; [|split; [|split; [|split]]]].
  - apply summary_of_found. exact Hauthor.
  - exact Hcs.
  - exact Hsorted.
  - eapply Forall_impl; [|exact Hcauthors].
    intros c Hc. apply summary_of_found. exact Hc.
  - rewrite Hlikes, map_map. reflexivity.
  - rewrite Hcount, Hlikes, length_map. reflexivity.
Qed.

(** C6. Whenever [getPosts] resolves, for any store, its rows are the
    posts of the store, the newest first ([createdAt] descending); each
    row carries the summary (id, name, image, username) of the user who
    wrote the post, the comments on the post with the oldest first
    ([createdAt] ascending) and the summaries of their authors, the user
    identifiers of the likes of the post, and the number of those
    likes; the store is not written.  It does resolve when its query
    does not throw, on a store whose posts and comments have their
    authors. *)
Theorem getPosts_ordered_and_enriched (w : World) :
  (forall rows w',
     getPosts w = (inr rows, w') ->
     db w' = db w /\
     Permutation (map pwr_post rows) (posts (db w)) /\
     newest_first rows /\
     Forall (enriched (db w)) rows) /\
  (no_fault (firstn 1 (faults w)) -> authors_exist (db w) ->
   exists rows w', getPosts w = (inr rows, w')).
Proof.
  open_world w. split.
  - intros rows w'.
    run_plan;
      try match goal with
          | |- context [traverse ?f ?l] => destruct (traverse f l) as [rs|] eqn:Hrs
          end;
      intros H; inversion H; subst; clear H;
      (split; [reflexivity|]);
      destruct (findMany_rows _ _ Hrs) as (Hperm & Hnew & Hrows);
      (split; [exact Hperm|]); (split; [exact Hnew|]);
      (eapply Forall_impl; [apply assembled_enriched | exact Hrows]).
  - intros Hplan Hfk.
    destruct (traverse_total (Prisma.include_post (Prisma.include getPosts_args) d)
                (Prisma.order_rows (Prisma.orderBy getPosts_args) post_createdAt (posts d)))
      as [rs Hrs].
    { intros p Hp. apply include_post_total; [exact Hfk|].
      exact (Permutation_in _ (sort_by_perm _ _ _) Hp). }
    run_plan; rewrite ?Hrs; eauto.
    exfalso. eapply Hplan. cbn. eauto.
Qed.

(** The store in which ["u2"] likes ["p1"]: the rows name the authors,
    the comments, the likes and their number. *)
Lemma getPosts_ordered_and_enriched_witness :
  let w := Examples.liked_world None [] in
  let rows := match fst (getPosts w) with inr rows => rows | inl _ => [] end in
  no_fault (firstn 1 (faults w)) /\
  authors_exist (db w) /\
  (exists rows w', getPosts w = (inr rows, w')) /\
  Forall (enriched (db w)) rows /\
  map (fun row =>
         (post_id (pwr_post row), author_username (pwr_author row),
          map (fun c => (comment_id (cwa_comment c), author_username (cwa_author c)))
            (pwr_comments row),
          map lu_userId (pwr_likes row), pwr_count_likes row))
    rows =
    [("p2", "bob", [], [], 0);
     ("p1", "alice", [("k2", "alice"); ("k1", "bob")], ["u2"], 1)].
Proof.
  intros w rows.
  assert (Hplan : no_fault (firstn 1 (faults w))) by (intros e []).
  assert (Hfk : authors_exist (db w)).
  { split.
    - intros p [<-|[<-|[]]]; [exists Sample.alice | exists Sample.bob];
        cbn; auto.
    - intros c [<-|[<-|[]]]; [exists Sample.bob | exists Sample.alice];
        cbn; auto. }
  split; [exact Hplan|]. split; [exact Hfk|].
  split; [exact (proj2 (getPosts_ordered_and_enriched w) Hplan Hfk)|].
  split; [|reflexivity].
  exact (proj2 (proj2 (proj2
           (proj1 (getPosts_ordered_and_enriched w) rows (snd (getPosts w)) eq_refl)))).
Defined.

(** ** A post that does not exist *)

(** C7, as the code has it.  On a [postId] that refers to no post the
    store is left unchanged; [deletePost] always resolves with the fixed
    envelope [{ success: false, error: "Failed to delete post" }], and
    [toggleLike] resolves with [{ success: false, error: "Failed to
    toggle like" }] whenever the identity resolves to a user identifier
    and with [undefined] when it resolves to none.  The error
    [Post not found] is what the [catch] logs when the lookups before
    the test went through; it is not in the envelope. *)
Theorem missing_post_generic_failure
    (w : World) (postId : string)
    (Habsent : Prisma.find_post postId (db w) = None) :
  (exists (w' : World) (e : thrown),
      deletePost postId w = (inr (Failure "Failed to delete post"), w') /\
      db w' = db w /\
      console w' = console w ++ [mkLog LevelError "Failed to delete post:" e] /\
      (no_fault (firstn 2 (faults w)) -> e = JsError "Post not found")) /\
  (exists (w' : World) (r : Result unit),
      toggleLike postId w = (inr r, w') /\
      db w' = db w /\
      (r = Undefined /\ truthy (session w) = None /\ console w' = console w \/
       r = Failure "Failed to toggle like" /\
       exists e : thrown,
         console w' = console w ++ [mkLog LevelError "Failed to toggle like:" e] /\
         (no_fault (firstn 3 (faults w)) -> e = JsError "Post not found")) /\
      (truthy (session w) = None -> no_fault (firstn 1 (faults w)) -> r = Undefined)).
Proof.
  open_world w. split.
  - run_plan_with Habsent;
      eexists; eexists; (repeat split; try reflexivity);
      intros Hplan; try reflexivity; absurd_plan.
  - unfold toggleLike, toggleLike_body, getDbUserId.
    run_plan;
      try (destruct (truthy s) as [u|] eqn:Hu; run_plan_with Habsent);
      eexists; eexists; (split; [reflexivity|]); (split; [reflexivity|]);
      (split; [| intros Hs Hplan; try reflexivity; try discriminate Hs; absurd_plan]);
      try (left; repeat split; reflexivity);
      right; (split; [reflexivity|]); eexists; (split; [reflexivity|]);
      intros Hplan; try reflexivity; absurd_plan.
Qed.

Lemma missing_post_generic_failure_witness :
  let w := Sample.world (Some "u1") [] in
  Prisma.find_post "p9" (db w) = None /\
  (exists (w' : World) (e : thrown),
      deletePost "p9" w = (inr (Failure "Failed to delete post"), w') /\
      db w' = db w /\
      console w' = console w ++ [mkLog LevelError "Failed to delete post:" e] /\
      (no_fault (firstn 2 (faults w)) -> e = JsError "Post not found")) /\
  fst (toggleLike "p9" w) = inr (Failure "Failed to toggle like") /\
  db (snd (toggleLike "p9" w)) = Sample.store.
Proof.
  intros w. split; [reflexivity|].
  split; [|split; reflexivity].
  exact (proj1 (missing_post_generic_failure w "p9" eq_refl)).
Defined.

(** C7 as stated fails: with no post ["p9"] in the store, the envelope
    of [toggleLike] and of [deletePost] carries the fixed text of the
    action, not the not-found error, and [toggleLike] in a request
    without identity resolves with no envelope at all. *)
Lemma missing_post_counterexample :
  Prisma.find_post "p9" Sample.store = None /\
  fst (toggleLike "p9" (Sample.world (Some "u1") [])) =
    inr (Failure "Failed to toggle like") /\
  fst (deletePost "p9" (Sample.world (Some "u1") [])) =
    inr (Failure "Failed to delete post") /\
  fst (toggleLike "p9" (Sample.world (Some "u1") [])) <>
    inr (Failure "Post not found") /\
  fst (deletePost "p9" (Sample.world (Some "u1") [])) <>
    inr (Failure "Post not found") /\
  fst (toggleLike "p9" (Sample.world None [])) = inr Undefined.
Proof.
  repeat split; try reflexivity; cbn; discriminate.
Qed.

(** ** Missing identity *)

(** C8. When the identity resolver resolves with no user identifier
    ([null], or the empty string, the other falsy value of its type),
    [createPost], [toggleLike] and [createComment] each resolve with
    [undefined]: no envelope, nothing logged, and the world is left as
    the resolver left it, so neither a persistence write nor a cache
    invalidation happened. *)
Theorem missing_identity_returns_undefined
    (w w1 : World) (v : option string)
    (Hid : getDbUserId w = (inr v, w1)) (Hnone : truthy v = None) :
  (forall content image, createPost content image w = (inr Undefined, w1)) /\
  (forall postId, toggleLike postId w = (inr Undefined, w1)) /\
  (forall postId content, createComment postId content w = (inr Undefined, w1)) /\
  db w1 = db w /\ console w1 = console w /\ revalidated w1 = revalidated w.
Proof.
  pose proof (getDbUserId_resolved _ _ _ Hid) as (_ & Hdb & Hcon & Hrev & _).
  repeat split; try assumption; intros.
  - apply try_catch_resolved. unfold createPost_body.
    rewrite (bind_resolved _ _ _ _ _ Hid), Hnone. reflexivity.
  - apply try_catch_resolved. unfold toggleLike_body.
    rewrite (bind_resolved _ _ _ _ _ Hid), Hnone. reflexivity.
  - apply try_catch_resolved. unfold createComment_body.
    rewrite (bind_resolved _ _ _ _ _ Hid), Hnone. reflexivity.
Qed.

Lemma missing_identity_returns_undefined_witness :
  let w := Sample.world None [None; Some (JsError "unreachable")] in
  let w1 := Sample.world None [Some (JsError "unreachable")] in
  (forall content image, createPost content image w = (inr Undefined, w1)) /\
  (forall postId, toggleLike postId w = (inr Undefined, w1)) /\
  (forall postId content, createComment postId content w = (inr Undefined, w1)) /\
  db w1 = db w /\ console w1 = console w /\ revalidated w1 = revalidated w.
Proof.
  intros w w1.
  apply (missing_identity_returns_undefined w w1 None); reflexivity.
Defined.

(** ** Failure propagation *)

Lemma try_catch_fails_soft {A : Type} (label : string) (message : thrown -> string)
    (body : M (Result A)) (w : World) :
  fails_soft label message body
    (try_catch body (fun error => console_error label error ;; ret (Failure (message error))))
    w.
Proof.
  unfold fails_soft, try_catch, bind, console_error, ret, logged.
  destruct (body w) as [[e|r] w1]; split; eauto.
Qed.

(** C9. Every mutation resolves whatever happens: when the [try] block
    of [createPost], [toggleLike], [createComment] or [deletePost] throws,
    the action logs the error and resolves with a
    [{ success: false, error }] envelope.  [getPosts] alone rejects: a
    failure of its query is logged and replaced by the fixed error
    [Failed in fetch posts], which reaches the caller. *)
Theorem mutations_fail_soft_getPosts_raises (w : World) :
  (forall content image,
      fails_soft createPost_label createPost_message
        (createPost_body content image) (createPost content image) w) /\
  (forall postId,
      fails_soft "Failed to toggle like:" (fun _ => "Failed to toggle like")
        (toggleLike_body postId) (toggleLike postId) w) /\
  (forall postId content,
      fails_soft "Failed to create comment:" (fun _ => "Failed to create comment")
        (createComment_body postId content) (createComment postId content) w) /\
  (forall postId,
      fails_soft "Failed to delete post:" (fun _ => "Failed to delete post")
        (deletePost_body postId) (deletePost postId) w) /\
  raises_generic "Error in getPosts" (JsError "Failed in fetch posts")
    getPosts_body getPosts w.
Proof.
  split; [|split; [|split; [|split]]]; intros; try apply try_catch_fails_soft.
  unfold raises_generic, getPosts, try_catch, bind, console_log, throw, logged.
  destruct (getPosts_body w) as [[e|r] w1]; reflexivity.
Qed.

(** The query of [getPosts] throws: the caller gets the fixed error.  A
    collaborator of [toggleLike] throws: the caller gets the envelope. *)
Lemma mutations_fail_soft_getPosts_raises_witness :
  raises_generic "Error in getPosts" (JsError "Failed in fetch posts")
    getPosts_body getPosts (Sample.world None [Some (JsOther "timeout")]) /\
  fst (getPosts (Sample.world None [Some (JsOther "timeout")])) =
    inl (JsError "Failed in fetch posts") /\
  fails_soft "Failed to toggle like:" (fun _ => "Failed to toggle like")
    (toggleLike_body "p1") (toggleLike "p1")
    (Sample.world (Some "u2") [None; Some (JsError "Connection lost")]) /\
  fst (toggleLike "p1" (Sample.world (Some "u2") [None; Some (JsError "Connection lost")])) =
    inr (Failure "Failed to toggle like").
Proof.
  split; [|split; [reflexivity|split; [|reflexivity]]].
  - exact (proj2 (proj2 (proj2 (proj2
      (mutations_fail_soft_getPosts_raises
         (Sample.world None [Some (JsOther "timeout")])))))).
  - exact (proj1 (proj2
      (mutations_fail_soft_getPosts_raises
         (Sample.world (Some "u2") [None; Some (JsError "Connection lost")]))) "p1").
Defined.

(** ** Deleting without an identity *)

(** C10. [deletePost] has no null-check on the resolved identity: in a
    request whose identity resolves to [null], on a post that exists, it
    does not resolve with [undefined] but with the envelope
    [{ success: false, error }], the post stays in the store, and the
    error that reached the [catch] is the one of the ownership check
    (unless one of the two collaborator calls before the check threw,
    in which case it is that failure; the envelope is the same). *)
Theorem deletePost_without_identity
    (w : World) (postId : string) (p : Post)
    (Hnull : session w = None)
    (Hpost : Prisma.find_post postId (db w) = Some p) :
  exists (w' : World) (e : thrown),
    deletePost postId w = (inr (Failure "Failed to delete post"), w') /\
    db w' = db w /\
    revalidated w' = revalidated w /\
    console w' = console w ++ [mkLog LevelError "Failed to delete post:" e] /\
    (no_fault (firstn 2 (faults w)) ->
     e = JsError "Unauthorized - no delete permission").
Proof.
  open_world w. subst.
  run_plan_with Hpost;
    eexists; eexists; (repeat split; try reflexivity);
    intros Hplan; try reflexivity; absurd_plan.
Qed.

Lemma deletePost_without_identity_witness :
  let w := Sample.world None [] in
  session w = None /\
  Prisma.find_post "p1" (db w) = Some Sample.p1 /\
  exists (w' : World) (e : thrown),
    deletePost "p1" w = (inr (Failure "Failed to delete post"), w') /\
    db w' = db w /\
    revalidated w' = revalidated w /\
    console w' = console w ++ [mkLog LevelError "Failed to delete post:" e] /\
    (no_fault (firstn 2 (faults w)) ->
     e = JsError "Unauthorized - no delete permission").
Proof.
  intros w. split; [reflexivity|]. split; [reflexivity|].
  exact (deletePost_without_identity w "p1" Sample.p1 eq_refl eq_refl).
Defined.

(** ** What each action can do to the store *)

Lemma createPost_db_cases (w : World) (content image : string) :
  db (snd (createPost content image w)) = db w \/
  exists p : Post,
    post_content p = content /\ post_image p = Some image /\
    truthy (session w) = Some (post_authorId p) /\
    db (snd (createPost content image w)) = set_posts (posts (db w) ++ [p]) (db w).
Proof.
  open_world w.
  run_cases; try (left; reflexivity).
  all: right; eexists (mkPost _ _ _ _ _); cbn; repeat split; reflexivity.
Qed.

Lemma toggleLike_db_cases (w : World) (postId : string) :
  db (snd (toggleLike postId w)) = db w \/
  (exists (u : string) (l : Like),
      truthy (session w) = Some u /\
      Prisma.find_like u postId (db w) = Some l /\
      db (snd (toggleLike postId w)) =
        set_likes (filter (fun k => negb (Prisma.like_has_key u postId k)) (likes (db w)))
          (db w)) \/
  (exists (u : string) (p : Post) (n : Notification),
      truthy (session w) = Some u /\
      Prisma.find_post postId (db w) = Some p /\
      Prisma.find_like u postId (db w) = None /\
      is_like_notification (post_authorId p) u postId n /\
      db (snd (toggleLike postId w)) =
        set_notifications (notifications (db w) ++ due_notification (post_authorId p) u n)
          (set_likes (likes (db w) ++ [mkLike u postId]) (db w))).
Proof.
  open_world w. unfold due_notification.
  destruct (Prisma.find_post postId d) as [p|] eqn:Hpost.
  2: { left. run_cases; reflexivity. }
  run_cases; try (left; reflexivity).
  all: try (right; left; eexists; eexists; repeat split;
            first [reflexivity | eassumption]).
  all: right; right;
    match goal with
    | H : truthy _ = Some ?u |- _ =>
        exists u; exists p;
        exists (mkNotification ("c" ++ NilEmpty.string_of_uint (Nat.to_uint nid))%string
                  LIKE (post_authorId p) u (Some postId) None clk)
    end;
    (repeat (split; [first [reflexivity | eassumption]|]));
    (split; [repeat split; reflexivity|]).
  all: unfold set_notifications, set_likes;
    match goal with H : strict_neq _ _ = _ |- _ => rewrite H end;
    cbn; rewrite ?app_nil_r; reflexivity.
Qed.

Lemma createComment_db_cases (w : World) (postId content : string) :
  db (snd (createComment postId content w)) = db w \/
  exists (u : string) (p : Post) (c : Comment) (n : Notification),
    truthy (session w) = Some u /\
    Prisma.find_post postId (db w) = Some p /\
    content <> "" /\
    comment_content c = content /\ comment_authorId c = u /\ comment_postId c = postId /\
    is_comment_notification (post_authorId p) u postId (comment_id c) n /\
    db (snd (createComment postId content w)) =
      set_notifications (notifications (db w) ++ due_notification (post_authorId p) u n)
        (set_comments (comments (db w) ++ [c]) (db w)).
Proof.
  open_world w. unfold due_notification.
  destruct (Prisma.find_post postId d) as [p|] eqn:Hpost.
  2: { left. run_cases; reflexivity. }
  run_cases; try (left; reflexivity).
  all: right;
    match goal with
    | H : truthy _ = Some ?u |- _ =>
        exists u; exists p;
        exists (mkComment ("c" ++ NilEmpty.string_of_uint (Nat.to_uint nid))%string
                  content u postId clk);
        exists (mkNotification ("c" ++ NilEmpty.string_of_uint (Nat.to_uint (S nid)))%string
                  COMMENT (post_authorId p) u (Some postId)
                  (Some ("c" ++ NilEmpty.string_of_uint (Nat.to_uint nid))%string)
                  (clk + 1)%Z)
    end;
    (split; [reflexivity|]); (split; [reflexivity|]);
    (split; [intros ->; discriminate|]);
    (repeat (split; [reflexivity|])); (split; [repeat split; reflexivity|]).
  all: unfold set_notifications, set_comments;
    match goal with H : strict_neq _ _ = _ |- _ => rewrite H end;
    cbn; rewrite ?app_nil_r; reflexivity.
Qed.

Lemma deletePost_db_cases (w : World) (postId : string) :
  db (snd (deletePost postId w)) = db w \/
  exists p : Post,
    Prisma.find_post postId (db w) = Some p /\
    session w = Some (post_authorId p) /\
    db (snd (deletePost postId w)) =
      mkDb (users (db w))
        (filter (fun q => negb (Prisma.post_has_id postId q)) (posts (db w)))
        (filter (fun c => negb (comment_postId c =? postId)) (comments (db w)))
        (filter (fun l => negb (like_postId l =? postId)) (likes (db w)))
        (notifications (db w)).
Proof.
  open_world w.
  destruct (Prisma.find_post postId d) as [p|] eqn:Hpost.
  2: { left. run_cases; reflexivity. }
  run_cases; try (left; reflexivity).
  all: right; exists p; (split; [reflexivity|]);
    match goal with H : strict_neq _ _ = false |- _ => apply strict_neq_false in H end;
    (split; [assumption | reflexivity]).
Qed.

Lemma getPosts_reads_only (w : World) :
  db (snd (getPosts w)) = db w /\ revalidated (snd (getPosts w)) = revalidated w.
Proof.
  open_world w. run_cases; split; reflexivity.
Qed.

(** ** Invariants of the store *)

Lemma filter_filter_length {A : Type} (f g : A -> bool) (l : list A) :
  length (filter f (filter g l)) <= length (filter f l).
Proof.
  induction l as [|x l IH]; cbn; [lia|].
  destruct (g x), (f x) eqn:Hf; cbn; rewrite ?Hf; cbn; lia.
Qed.

Lemma like_has_key_created (u' p' u postId : string) :
  Prisma.like_has_key u' p' (mkLike u postId) = true -> u = u' /\ postId = p'.
Proof.
  unfold Prisma.like_has_key. cbn. rewrite andb_true_iff, !String.eqb_eq. tauto.
Qed.

Lemma due_notification_not_self (author u postId : string) (n : Notification) :
  is_like_notification author u postId n \/
  (exists commentId, is_comment_notification author u postId commentId n) ->
  Forall (fun m => notification_userId m <> notification_creatorId m)
    (due_notification author u n).
Proof.
  intros Hn. unfold due_notification.
  destruct (strict_neq author (Some u)) eqn:Hs; constructor; [|constructor].
  apply strict_neq_true in Hs.
  destruct Hn as [(_ & Hto & Hby & _) | (k & _ & Hto & Hby & _)];
    rewrite Hto, Hby; congruence.
Qed.

(** X8. Every action keeps the Like relation a clean boolean: when no
    pair (user, post) has more than one Like row before an action, none
    has more than one after it, whatever collaborator call throws. *)
Theorem actions_keep_likes_unique (w : World) (Hunique : likes_unique (db w)) :
  (forall content image, likes_unique (db (snd (createPost content image w)))) /\
  (forall postId, likes_unique (db (snd (toggleLike postId w)))) /\
  (forall postId content, likes_unique (db (snd (createComment postId content w)))) /\
  (forall postId, likes_unique (db (snd (deletePost postId w)))) /\
  likes_unique (db (snd (getPosts w))).
Proof.
  split; [|split; [|split; [|split]]].
  - intros content image.
    destruct (createPost_db_cases w content image) as [->|(p & _ & _ & _ & ->)];
      [assumption|].
    intros u' p'. apply (Hunique u' p').
  - intros postId.
    destruct (toggleLike_db_cases w postId)
      as [->|[(u & l & _ & _ & ->)|(u & p & n & _ & _ & Hnone & _ & ->)]];
      [assumption| |]; intros u' p'; unfold count_likes; cbn.
    + etransitivity; [apply filter_filter_length | apply (Hunique u' p')].
    + rewrite filter_app, length_app. cbn.
      destruct (Prisma.like_has_key u' p' (mkLike u postId)) eqn:Hkey; cbn.
      * apply like_has_key_created in Hkey. destruct Hkey as [<- <-].
        apply find_like_count in Hnone. unfold count_likes in Hnone. lia.
      * pose proof (Hunique u' p') as H. unfold count_likes in H. lia.
  - intros postId content.
    destruct (createComment_db_cases w postId content)
      as [->|(u & p & c & n & _ & _ & _ & _ & _ & _ & _ & ->)]; [assumption|].
    intros u' p'. apply (Hunique u' p').
  - intros postId.
    destruct (deletePost_db_cases w postId) as [->|(p & _ & _ & ->)]; [assumption|].
    intros u' p'. unfold count_likes. cbn.
    etransitivity; [apply filter_filter_length | apply (Hunique u' p')].
  - rewrite (proj1 (getPosts_reads_only w)). assumption.
Qed.

(** X9. No action ever notifies a user of their own action: when no
    stored notification has its recipient as creator before an action,
    none has after it, whatever collaborator call throws. *)
Theorem actions_never_notify_the_actor (w : World)
    (Hclean : no_self_notification (db w)) :
  (forall content image, no_self_notification (db (snd (createPost content image w)))) /\
  (forall postId, no_self_notification (db (snd (toggleLike postId w)))) /\
  (forall postId content,
      no_self_notification (db (snd (createComment postId content w)))) /\
  (forall postId, no_self_notification (db (snd (deletePost postId w)))) /\
  no_self_notification (db (snd (getPosts w))).
Proof.
  unfold no_self_notification in *.
  split; [|split; [|split; [|split]]].
  - intros content image.
    destruct (createPost_db_cases w content image) as [->|(p & _ & _ & _ & ->)];
      assumption.
  - intros postId.
    destruct (toggleLike_db_cases w postId)
      as [->|[(u & l & _ & _ & ->)|(u & p & n & _ & _ & _ & Hn & ->)]];
      try assumption.
    cbn. apply Forall_app. split; [assumption|].
    eapply due_notification_not_self. left. exact Hn.
  - intros postId content.
    destruct (createComment_db_cases w postId content)
      as [->|(u & p & c & n & _ & _ & _ & _ & _ & _ & Hn & ->)]; [assumption|].
    cbn. apply Forall_app. split; [assumption|].
    eapply due_notification_not_self. right. eexists. exact Hn.
  - intros postId.
    destruct (deletePost_db_cases w postId) as [->|(p & _ & _ & ->)]; assumption.
  - rewrite (proj1 (getPosts_reads_only w)). assumption.
Qed.

(** ** Cache invalidation and results *)

(** X3. Each of the four mutations marks the home feed stale exactly
    when it answers with a success envelope: after a failure envelope
    or [undefined] nothing is marked, after a success exactly ["/"] is,
    once. *)
Theorem revalidates_exactly_on_success (w : World) :
  (forall content image,
      revalidated (snd (createPost content image w)) =
      revalidated w ++ invalidated (fst (createPost content image w))) /\
  (forall postId,
      revalidated (snd (toggleLike postId w)) =
      revalidated w ++ invalidated (fst (toggleLike postId w))) /\
  (forall postId content,
      revalidated (snd (createComment postId content w)) =
      revalidated w ++ invalidated (fst (createComment postId content w))) /\
  (forall postId,
      revalidated (snd (deletePost postId w)) =
      revalidated w ++ invalidated (fst (deletePost postId w))).
Proof.
  open_world w. unfold invalidated.
  split; [|split; [|split]]; intros;
    run_cases; cbn; rewrite ?app_nil_r; reflexivity.
Qed.

(** X4. [createPost], [toggleLike] and [createComment] answer
    [undefined] only in a request whose identity is missing (or empty);
    [deletePost] never answers [undefined]. *)
Theorem undefined_only_without_identity (w : World) :
  (forall content image,
      fst (createPost content image w) = inr Undefined -> truthy (session w) = None) /\
  (forall postId,
      fst (toggleLike postId w) = inr Undefined -> truthy (session w) = None) /\
  (forall postId content,
      fst (createComment postId content w) = inr Undefined -> truthy (session w) = None) /\
  (forall postId, fst (deletePost postId w) <> inr Undefined).
Proof.
  open_world w.
  split; [|split; [|split]].
  - intros content image.
    run_cases; cbn; intros H; first [reflexivity | discriminate H].
  - intros postId.
    run_cases; cbn; intros H; first [reflexivity | discriminate H].
  - intros postId content.
    run_cases; cbn; intros H; first [reflexivity | discriminate H].
  - intros postId. run_cases; cbn; discriminate.
Qed.

(** ** Creating a post *)

Lemma createPost_success (w w' : World) (content image : string) (ps : PostSummary) :
  createPost content image w = (inr (Success ps), w') ->
  exists p : Post,
    ps = summary_of p /\
    post_content p = content /\ post_image p = Some image /\
    truthy (session w) = Some (post_authorId p) /\
    db w' = set_posts (posts (db w) ++ [p]) (db w) /\
    session w' = session w.
Proof.
  open_world w.
  run_cases; intros H; inversion H; subst; clear H.
  all: eexists (mkPost _ _ _ _ _); cbn; repeat split; reflexivity.
Qed.

Lemma createPost_succeeds (w : World) (content image : string) :
  truthy (session w) <> None -> no_fault (firstn 3 (faults w)) ->
  exists s w', createPost content image w = (inr (Success s), w').
Proof.
  open_world w. intros Hid Hplan.
  run_cases; try (exfalso; apply Hid; reflexivity);
    first [eexists; eexists; reflexivity | absurd_plan].
Qed.

(** X1. [createPost] validates nothing but the identity: whatever the
    content and the image (empty ones included), it succeeds when the
    identity is resolved and none of its three collaborator calls
    throws.  A success appends exactly one Post row, with the given
    content and image and the actor as author, leaves every other
    relation as it was, and returns the summary of that very row. *)
Theorem createPost_stores_the_post (w : World) (content image : string) :
  (truthy (session w) <> None -> no_fault (firstn 3 (faults w)) ->
   exists s w', createPost content image w = (inr (Success s), w')) /\
  (forall s w',
     createPost content image w = (inr (Success s), w') ->
     exists p : Post,
       s = summary_of p /\
       post_content p = content /\ post_image p = Some image /\
       truthy (session w) = Some (post_authorId p) /\
       db w' = set_posts (posts (db w) ++ [p]) (db w)).
Proof.
  split.
  - apply createPost_succeeds.
  - intros s w' H.
    destruct (createPost_success w w' content image s H) as (p & H1 & H2 & H3 & H4 & H5 & _).
    exists p. auto.
Qed.

Lemma getPosts_rows (w w' : World) (rows : list PostWithRelations) :
  getPosts w = (inr rows, w') ->
  Permutation (map pwr_post rows) (posts (db w)) /\
  newest_first rows /\
  Forall (assembled (db w)) rows.
Proof.
  open_world w.
  run_plan;
    try match goal with
        | |- context [traverse ?f ?l] => destruct (traverse f l) as [rs|] eqn:Hrs
        end;
    intros H; inversion H; subst; clear H;
    apply findMany_rows; exact Hrs.
Qed.

Lemma getPosts_row_of_post (w w' : World) (rows : list PostWithRelations) (p : Post) :
  getPosts w = (inr rows, w') -> In p (posts (db w)) ->
  exists row, In row rows /\ pwr_post row = p /\ assembled (db w) row.
Proof.
  intros Hget Hp.
  destruct (getPosts_rows w w' rows Hget) as (Hperm & _ & Hrows).
  apply (Permutation_in _ (Permutation_sym Hperm)) in Hp.
  apply in_map_iff in Hp. destruct Hp as (row & Hrow & Hin).
  exists row. split; [exact Hin|]. split; [exact Hrow|].
  rewrite Forall_forall in Hrows. apply Hrows. exact Hin.
Qed.

(** X2. A post created by [createPost] is listed by the next
    [getPosts]: when both succeed, one of the rows is the new post, with
    the identifier, content, image and author of the returned summary,
    the given content and image, and the actor as author. *)
Theorem createPost_then_getPosts
    (w w1 w2 : World) (content image : string) (s : PostSummary)
    (rows : list PostWithRelations)
    (Hcreate : createPost content image w = (inr (Success s), w1))
    (Hlist : getPosts w1 = (inr rows, w2)) :
  exists row : PostWithRelations,
    In row rows /\
    summary_of (pwr_post row) = s /\
    post_content (pwr_post row) = content /\
    post_image (pwr_post row) = Some image /\
    truthy (session w) = Some (post_authorId (pwr_post row)).
Proof.
  destruct (createPost_success w w1 content image s Hcreate)
    as (p & -> & Hc & Hi & Ha & Hdb & _).
  destruct (getPosts_row_of_post w1 w2 rows p Hlist) as (row & Hin & <- & _).
  - rewrite Hdb. cbn. apply in_or_app. right. left. reflexivity.
  - exists row. auto.
Qed.

(** ** Unliking, and the other pairs *)

Lemma truthy_session (v : option string) (u : string) :
  truthy v = Some u -> v = Some u /\ u <> "".
Proof.
  destruct v as [x|]; cbn; [|discriminate].
  destruct (String.eqb_spec x ""); [discriminate|].
  intros H; inversion H; subst; auto.
Qed.

Lemma toggleLike_unlike_success (w w' : World) (postId u : string) (l : Like)
    (Hu : truthy (session w) = Some u)
    (Hlike : Prisma.find_like u postId (db w) = Some l) :
  toggleLike postId w = (inr (Success tt), w') ->
  db w' = set_likes (filter (fun k => negb (Prisma.like_has_key u postId k)) (likes (db w)))
            (db w).
Proof.
  open_world w.
  run_cases; intros H; inversion H; subst; clear H; reflexivity.
Qed.

Lemma toggleLike_unlike_succeeds (w : World) (postId u : string) (l : Like) (p : Post)
    (Hu : truthy (session w) = Some u)
    (Hlike : Prisma.find_like u postId (db w) = Some l)
    (Hpost : Prisma.find_post postId (db w) = Some p)
    (Hplan : no_fault (firstn 5 (faults w))) :
  exists w', toggleLike postId w = (inr (Success tt), w').
Proof.
  open_world w.
  run_cases; first [eexists; reflexivity | absurd_plan].
Qed.

(** X5. Unliking has no notification side effect.  When the actor
    already likes the post, [toggleLike] leaves the notifications as they
    were, whatever happens; when it succeeds, the actor's Like row for
    the post is gone and nothing else of the store has changed.  It
    succeeds when the post exists and none of its five collaborator
    calls throws. *)
Theorem unlike_removes_the_like_only
    (w : World) (postId u : string) (l : Like)
    (Hu : truthy (session w) = Some u)
    (Hlike : Prisma.find_like u postId (db w) = Some l) :
  notifications (db (snd (toggleLike postId w))) = notifications (db w) /\
  (forall w',
     toggleLike postId w = (inr (Success tt), w') ->
     db w' = set_likes (filter (fun k => negb (Prisma.like_has_key u postId k))
                          (likes (db w))) (db w) /\
     Prisma.find_like u postId (db w') = None) /\
  (forall p,
     Prisma.find_post postId (db w) = Some p ->
     no_fault (firstn 5 (faults w)) ->
     exists w', toggleLike postId w = (inr (Success tt), w')).
Proof.
  split; [|split].
  - destruct (toggleLike_db_cases w postId)
      as [->|[(u1 & l1 & _ & _ & ->)|(u1 & p & n & Hu1 & _ & Hnone & _ & _)]];
      try reflexivity.
    rewrite Hu in Hu1. inversion Hu1; subst. congruence.
  - intros w' Hrun.
    rewrite (toggleLike_unlike_success w w' postId u l Hu Hlike Hrun).
    split; [reflexivity|]. apply find_filter_negb.
  - intros p Hpost Hplan. eapply toggleLike_unlike_succeeds; eassumption.
Qed.

Lemma filter_filter_implied {A : Type} (f g : A -> bool) (l : list A) :
  (forall x, f x = true -> g x = true) -> filter f (filter g l) = filter f l.
Proof.
  intros H. induction l as [|x l IH]; cbn; [reflexivity|].
  destruct (g x) eqn:Hg; cbn.
  - rewrite IH. reflexivity.
  - destruct (f x) eqn:Hf; [|exact IH].
    apply H in Hf. congruence.
Qed.

Lemma like_has_key_other (u postId u' p' : string) (k : Like) :
  u <> u' \/ p' <> postId ->
  Prisma.like_has_key u' p' k = true ->
  negb (Prisma.like_has_key u postId k) = true.
Proof.
  unfold Prisma.like_has_key. intros Hother.
  rewrite negb_true_iff, andb_true_iff, andb_false_iff, !String.eqb_eq, !String.eqb_neq.
  intros [Hk1 Hk2]. destruct Hother as [H|H]; [left|right]; congruence.
Qed.

(** X6. [toggleLike] touches the Like rows of one pair only, the actor
    and the post it is given: users, posts and comments stay as they
    were, and for every other pair (user, post) the Like rows are the
    same after it as before, whatever collaborator call throws. *)
Theorem toggleLike_touches_one_pair
    (w : World) (postId u' p' : string)
    (Hother : session w <> Some u' \/ p' <> postId) :
  users (db (snd (toggleLike postId w))) = users (db w) /\
  posts (db (snd (toggleLike postId w))) = posts (db w) /\
  comments (db (snd (toggleLike postId w))) = comments (db w) /\
  filter (Prisma.like_has_key u' p') (likes (db (snd (toggleLike postId w)))) =
  filter (Prisma.like_has_key u' p') (likes (db w)).
Proof.
  destruct (toggleLike_db_cases w postId)
    as [->|[(u & l & Hu & _ & ->)|(u & p & n & Hu & _ & _ & _ & ->)]];
    [repeat split; reflexivity | |];
    apply truthy_session in Hu; destruct Hu as [Hu _];
    assert (Hpair : u <> u' \/ p' <> postId)
      by (destruct Hother as [H|H]; [left; congruence | right; exact H]);
    (repeat (split; [reflexivity|])); cbn.
  - apply filter_filter_implied. intros k. apply like_has_key_other. exact Hpair.
  - rewrite filter_app. cbn.
    destruct (Prisma.like_has_key u' p' (mkLike u postId)) eqn:Hkey.
    + apply like_has_key_created in Hkey. destruct Hkey as [<- <-].
      destruct Hpair; congruence.
    + apply app_nil_r.
Qed.

(** ** Notifications over repeated toggles *)

Lemma toggleLike_notifications_step (w w' : World) (postId u : string) (p : Post)
    (Hu : session w = Some u)
    (Hpost : Prisma.find_post postId (db w) = Some p) :
  toggleLike postId w = (inr (Success tt), w') ->
  (Prisma.find_like u postId (db w) = None ->
   exists n : Notification,
     is_like_notification (post_authorId p) u postId n /\
     notifications (db w') =
       notifications (db w) ++ due_notification (post_authorId p) u n) /\
  (Prisma.find_like u postId (db w) <> None ->
   notifications (db w') = notifications (db w)).
Proof.
  open_world w. subst. unfold due_notification.
  run_cases; intros H; inversion H; subst; clear H; cbn [db notifications].
  all: split; intros Hl; try congruence; try reflexivity.
  all: exists (mkNotification ("c" ++ NilEmpty.string_of_uint (Nat.to_uint nid))%string
                 LIKE (post_authorId p) u (Some postId) None clk);
    (split; [repeat split; reflexivity|]);
    cbn; rewrite ?app_nil_r; reflexivity.
Qed.

Lemma toggles_notifications (postId u : string) (p : Post) (n : nat) :
  forall (w w' : World),
    session w = Some u ->
    Prisma.find_post postId (db w) = Some p ->
    count_likes u postId (db w) <= 1 ->
    toggles n postId w = Some w' ->
    exists ns : list Notification,
      notifications (db w') = notifications (db w) ++ ns /\
      Forall (is_like_notification (post_authorId p) u postId) ns /\
      length ns =
        if strict_neq (post_authorId p) (Some u)
        then match Prisma.find_like u postId (db w) with
             | None => Nat.div2 (S n)
             | Some _ => Nat.div2 n
             end
        else 0.
Proof.
  induction n as [|n IH]; intros w w' Hu Hpost Hle Hrun.
  - cbn in Hrun. inversion Hrun; subst. exists []. rewrite app_nil_r.
    repeat split; [constructor|].
    destruct (strict_neq (post_authorId p) (Some u)),
      (Prisma.find_like u postId (db w')); reflexivity.
  - cbn [toggles] in Hrun.
    destruct (toggleLike postId w) as [[e|[|[]|msg]] w1] eqn:Ht; try discriminate.
    destruct (toggleLike_flips w w1 postId u Hu Ht) as (Hs & Hposts & Hnone & Hsome).
    destruct (toggleLike_notifications_step w w1 postId u p Hu Hpost Ht) as (Hn0 & Hn1).
    assert (Hpost1 : Prisma.find_post postId (db w1) = Some p)
      by (unfold Prisma.find_post in *; rewrite Hposts; exact Hpost).
    destruct (Prisma.find_like u postId (db w)) as [l|] eqn:Hl.
    + assert (H0 : count_likes u postId (db w1) = 0) by (apply Hsome; discriminate).
      destruct (IH w1 w' Hs Hpost1) as (ns & Hns & Hall & Hlen); [lia | exact Hrun |].
      exists ns. rewrite Hns, Hn1 by discriminate.
      repeat split; [exact Hall|].
      rewrite Hlen. apply find_like_count in H0. rewrite H0. reflexivity.
    + destruct (Hn0 eq_refl) as (m & Hm & Hadd).
      assert (H1 : count_likes u postId (db w1) = 1).
      { rewrite Hnone by reflexivity. apply find_like_count in Hl. lia. }
      destruct (IH w1 w' Hs Hpost1) as (ns & Hns & Hall & Hlen); [lia | exact Hrun |].
      exists (due_notification (post_authorId p) u m ++ ns).
      rewrite Hns, Hadd, app_assoc.
      repeat split.
      * apply Forall_app. split; [|exact Hall].
        unfold due_notification.
        destruct (strict_neq (post_authorId p) (Some u));
          [constructor; [exact Hm | constructor] | constructor].
      * rewrite length_app, Hlen. unfold due_notification.
        destruct (strict_neq (post_authorId p) (Some u)); [|reflexivity].
        destruct (Prisma.find_like u postId (db w1)) eqn:Hl1.
        -- reflexivity.
        -- apply find_like_count in Hl1. lia.
Qed.

(** X7. An unlike does not take the notification back, and every new
    like notifies again.  After [n] successful toggles in sequence by a
    user who is not the author, starting with no Like, the store has
    gained [(n + 1) / 2] notifications, one per like, all of kind [LIKE],
    addressed to the author with the actor as creator; for the author's
    own toggles it has gained none. *)
Theorem toggles_notify_once_per_like
    (n : nat) (w w' : World) (postId u : string) (p : Post)
    (Hu : session w = Some u)
    (Hpost : Prisma.find_post postId (db w) = Some p)
    (Hnone : Prisma.find_like u postId (db w) = None)
    (Hrun : toggles n postId w = Some w') :
  exists ns : list Notification,
    notifications (db w') = notifications (db w) ++ ns /\
    Forall (is_like_notification (post_authorId p) u postId) ns /\
    length ns = if strict_neq (post_authorId p) (Some u) then Nat.div2 (S n) else 0.
Proof.
  destruct (toggles_notifications postId u p n w w' Hu Hpost) as (ns & H1 & H2 & H3);
    [apply find_like_count in Hnone; lia | exact Hrun |].
  exists ns. rewrite Hnone in H3. auto.
Qed.

(** ** Commenting *)

(** X10. [createComment] on a [postId] that refers to no post writes
    nothing.  With a resolved identity and a non-empty content it
    answers the fixed envelope
    [{ success: false, error: "Failed to create comment" }], and what the
    [catch] logs is [Post not found] when the two calls before the test
    (identity resolver, post lookup) went through. *)
Theorem createComment_missing_post
    (w : World) (postId content u : string)
    (Hu : truthy (session w) = Some u)
    (Hcontent : content <> "")
    (Habsent : Prisma.find_post postId (db w) = None) :
  exists (w' : World) (e : thrown),
    createComment postId content w = (inr (Failure "Failed to create comment"), w') /\
    db w' = db w /\
    revalidated w' = revalidated w /\
    console w' = console w ++ [mkLog LevelError "Failed to create comment:" e] /\
    (no_fault (firstn 2 (faults w)) -> e = JsError "Post not found").
Proof.
  open_world w.
  run_cases;
    try (match goal with
         | H : (_ =? "") = true |- _ => apply String.eqb_eq in H; contradiction
         end);
    eexists; eexists; (repeat (split; [reflexivity|]));
    intros Hplan; first [reflexivity | absurd_plan].
Qed.

Lemma createComment_success (w w' : World) (postId content : string) (c : Comment) :
  createComment postId content w = (inr (Success c), w') ->
  comment_content c = content /\ comment_postId c = postId /\
  truthy (session w) = Some (comment_authorId c) /\
  Prisma.find_post postId (db w) <> None /\
  users (db w') = users (db w) /\
  posts (db w') = posts (db w) /\
  likes (db w') = likes (db w) /\
  comments (db w') = comments (db w) ++ [c].
Proof.
  open_world w.
  destruct (Prisma.find_post postId d) as [p|] eqn:Hpost;
    run_cases; intros H; inversion H; subst; clear H; cbn;
    repeat split; try reflexivity; discriminate.
Qed.

Lemma find_post_In (postId : string) (d : Db) (p : Post) :
  Prisma.find_post postId d = Some p -> In p (posts d) /\ post_id p = postId.
Proof.
  unfold Prisma.find_post, Prisma.post_has_id. intros H.
  apply find_some in H. destruct H as [Hin Hid].
  apply String.eqb_eq in Hid. auto.
Qed.

(** X11. A comment created by [createComment] is listed by the next
    [getPosts]: when both succeed, the post is among the rows, and every
    row of that post carries the new comment, with the given content and
    the actor as author. *)
Theorem createComment_then_getPosts
    (w w1 w2 : World) (postId content : string) (c : Comment)
    (rows : list PostWithRelations)
    (Hcreate : createComment postId content w = (inr (Success c), w1))
    (Hlist : getPosts w1 = (inr rows, w2)) :
  comment_content c = content /\
  truthy (session w) = Some (comment_authorId c) /\
  (exists row, In row rows /\ post_id (pwr_post row) = postId) /\
  (forall row,
     In row rows -> post_id (pwr_post row) = postId ->
     In c (map cwa_comment (pwr_comments row))).
Proof.
  destruct (createComment_success w w1 postId content c Hcreate)
    as (Hc & Hp & Ha & Hfound & _ & Hposts & _ & Hcomments).
  split; [exact Hc|]. split; [exact Ha|].
  destruct (getPosts_rows w1 w2 rows Hlist) as (Hperm & _ & Hrows).
  split.
  - destruct (Prisma.find_post postId (db w)) as [p|] eqn:Hpost; [|congruence].
    apply find_post_In in Hpost. destruct Hpost as [Hin Hid].
    destruct (getPosts_row_of_post w1 w2 rows p Hlist) as (row & Hrow & Heq & _).
    + rewrite Hposts. exact Hin.
    + exists row. split; [exact Hrow|]. rewrite Heq. exact Hid.
  - intros row Hin Hid.
    rewrite Forall_forall in Hrows. destruct (Hrows row Hin) as (_ & Hcs & _).
    apply (Permutation_in _ (Permutation_sym Hcs)).
    unfold Prisma.comments_of. apply filter_In. split.
    + rewrite Hcomments. apply in_or_app. right. left. reflexivity.
    + rewrite Hp, Hid. apply String.eqb_refl.
Qed.

(** ** Liking and deleting, then listing *)

Lemma toggleLike_like_success (w w' : World) (postId u : string)
    (Hu : session w = Some u)
    (Hnone : Prisma.find_like u postId (db w) = None) :
  toggleLike postId w = (inr (Success tt), w') ->
  Prisma.find_post postId (db w) <> None /\
  posts (db w') = posts (db w) /\
  likes (db w') = likes (db w) ++ [mkLike u postId].
Proof.
  open_world w. subst.
  destruct (Prisma.find_post postId d) as [p|] eqn:Hpost;
    run_cases; intros H; inversion H; subst; clear H; cbn;
    repeat split; try reflexivity; discriminate.
Qed.

(** X12. A like is visible in the next [getPosts]: after a successful
    [toggleLike] by a user who had not liked the post, the post is among
    the rows, and every row of that post lists the user among its likes
    and counts one like more than the store had for it before. *)
Theorem like_then_getPosts
    (w w1 w2 : World) (postId u : string) (rows : list PostWithRelations)
    (Hu : session w = Some u)
    (Hnone : Prisma.find_like u postId (db w) = None)
    (Hlike : toggleLike postId w = (inr (Success tt), w1))
    (Hlist : getPosts w1 = (inr rows, w2)) :
  (exists row, In row rows /\ post_id (pwr_post row) = postId) /\
  (forall row,
     In row rows -> post_id (pwr_post row) = postId ->
     In (mkLikeUserId u) (pwr_likes row) /\
     pwr_count_likes row = S (length (Prisma.likes_of (db w) (pwr_post row)))).
Proof.
  destruct (toggleLike_like_success w w1 postId u Hu Hnone Hlike)
    as (Hfound & Hposts & Hlikes).
  destruct (getPosts_rows w1 w2 rows Hlist) as (Hperm & _ & Hrows).
  split.
  - destruct (Prisma.find_post postId (db w)) as [p|] eqn:Hpost; [|congruence].
    apply find_post_In in Hpost. destruct Hpost as [Hin Hid].
    destruct (getPosts_row_of_post w1 w2 rows p Hlist) as (row & Hrow & Heq & _).
    + rewrite Hposts. exact Hin.
    + exists row. split; [exact Hrow|]. rewrite Heq. exact Hid.
  - intros row Hin Hid.
    rewrite Forall_forall in Hrows.
    destruct (Hrows row Hin) as (_ & _ & _ & _ & Hl & Hcount).
    assert (Hof : Prisma.likes_of (db w1) (pwr_post row) =
                  Prisma.likes_of (db w) (pwr_post row) ++ [mkLike u postId]).
    { unfold Prisma.likes_of. rewrite Hlikes, filter_app. cbn.
      rewrite Hid, String.eqb_refl. reflexivity. }
    rewrite Hcount, Hl, Hof. split.
    + rewrite map_app. apply in_or_app. right. left. reflexivity.
    + rewrite length_map, length_app. cbn. lia.
Qed.

Lemma deletePost_success (w w' : World) (postId : string) :
  deletePost postId w = (inr (Success tt), w') ->
  posts (db w') = filter (fun q => negb (Prisma.post_has_id postId q)) (posts (db w)).
Proof.
  open_world w.
  run_cases; intros H; inversion H; subst; clear H; reflexivity.
Qed.

(** X13. [deletePost] removes the post it is given and no other.
    Whatever happens, every post with another identifier is still in the
    store afterwards; after a success no post of that identifier is
    left, the next [getPosts] has no row for it, and it still has a row
    for every other post. *)
Theorem deletePost_removes_that_post_only (w : World) (postId : string) :
  (forall q,
     In q (posts (db w)) -> post_id q <> postId ->
     In q (posts (db (snd (deletePost postId w))))) /\
  (forall w1,
     deletePost postId w = (inr (Success tt), w1) ->
     Prisma.find_post postId (db w1) = None /\
     forall rows w2,
       getPosts w1 = (inr rows, w2) ->
       (forall row, In row rows -> post_id (pwr_post row) <> postId) /\
       (forall q, In q (posts (db w)) -> post_id q <> postId ->
                  exists row, In row rows /\ pwr_post row = q)).
Proof.
  assert (Hkeep : forall q, In q (posts (db w)) -> post_id q <> postId ->
            In q (filter (fun q => negb (Prisma.post_has_id postId q)) (posts (db w)))).
  { intros q Hin Hid. apply filter_In. split; [exact Hin|].
    unfold Prisma.post_has_id. apply negb_true_iff, String.eqb_neq. exact Hid. }
  split.
  - intros q Hin Hid.
    destruct (deletePost_db_cases w postId) as [->|(p & _ & _ & ->)];
      [exact Hin | cbn; apply Hkeep; assumption].
  - intros w1 Hdel.
    pose proof (deletePost_success w w1 postId Hdel) as Hposts.
    split.
    + unfold Prisma.find_post. rewrite Hposts. apply find_filter_negb.
    + intros rows w2 Hlist.
      destruct (getPosts_rows w1 w2 rows Hlist) as (Hperm & _ & _).
      split.
      * intros row Hin Hid.
        assert (Hp : In (pwr_post row) (posts (db w1)))
          by (apply (Permutation_in _ Hperm), in_map; exact Hin).
        rewrite Hposts in Hp. apply filter_In in Hp. destruct Hp as [_ Hp].
        unfold Prisma.post_has_id in Hp.
        apply negb_true_iff, String.eqb_neq in Hp. contradiction.
      * intros q Hin Hid.
        destruct (getPosts_row_of_post w1 w2 rows q Hlist) as (row & Hrow & Heq & _).
        -- rewrite Hposts. apply Hkeep; assumption.
        -- exists row. auto.
Qed.

(** ** The profile page *)

Section ProfilePageFacts.

Variables ProfileUser PostList Following : Type.
Variable profile_id : ProfileUser -> string.
Variable getProfileByUsername : string -> M (option ProfileUser).
Variable fetched_together : string -> string -> string -> M (PostList * PostList * Following).


End ProfilePageFacts.

(** ** Runs on the sample worlds *)

(** Evaluates the run recorded in [H], leaving [H] as it is. *)
Ltac evaluate_run H :=
  let E := fresh "E" in
  pose proof H as E; vm_compute in E; inversion E; subst; clear E.

Lemma createPost_stores_the_post_witness :
  let w := Sample.world (Some "u1") [] in
  truthy (session w) <> None /\
  no_fault (firstn 3 (faults w)) /\
  exists s w', createPost "" "" w = (inr (Success s), w').
Proof.
  intros w.
  assert (Hid : truthy (session w) <> None) by (cbn; discriminate).
  assert (Hplan : no_fault (firstn 3 (faults w))) by (intros e []).
  split; [exact Hid|]. split; [exact Hplan|].
  exact (proj1 (createPost_stores_the_post w "" "") Hid Hplan).
Defined.

Lemma createPost_then_getPosts_witness :
  let w := Sample.world (Some "u1") [] in
  match createPost "hello" "" w with
  | (inr (Success s), w1) =>
      match getPosts w1 with
      | (inr rows, _) =>
          exists row : PostWithRelations,
            In row rows /\
            summary_of (pwr_post row) = s /\
            post_content (pwr_post row) = "hello" /\
            post_image (pwr_post row) = Some "" /\
            truthy (session w) = Some (post_authorId (pwr_post row))
      | _ => False
      end
  | _ => False
  end.
Proof.
  intros w.
  destruct (createPost "hello" "" w) as [[e|[|s|msg]] w1] eqn:Hc;
    try (vm_compute in Hc; discriminate).
  destruct (getPosts w1) as [[e|rows] w2] eqn:Hl.
  - evaluate_run Hc. vm_compute in Hl. discriminate.
  - exact (createPost_then_getPosts w w1 w2 "hello" "" s rows Hc Hl).
Defined.

Lemma revalidates_exactly_on_success_witness :
  let w := Sample.world (Some "u2") [None; None; None; Some (JsError "Connection lost")] in
  revalidated (snd (toggleLike "p1" w)) =
    revalidated w ++ invalidated (fst (toggleLike "p1" w)) /\
  revalidated (snd (toggleLike "p1" w)) = [] /\
  revalidated (snd (toggleLike "p1" (Sample.world (Some "u2") []))) = ["/"].
Proof.
  intros w. split; [|split; reflexivity].
  exact (proj1 (proj2 (revalidates_exactly_on_success w)) "p1").
Defined.

Lemma undefined_only_without_identity_witness :
  let w := Sample.world (Some "") [] in
  fst (toggleLike "p1" w) = inr Undefined /\
  truthy (session w) = None /\
  fst (deletePost "p1" w) <> inr Undefined.
Proof.
  intros w.
  assert (Hrun : fst (toggleLike "p1" w) = inr Undefined) by reflexivity.
  split; [exact Hrun|]. split.
  - exact (proj1 (proj2 (undefined_only_without_identity w)) "p1" Hrun).
  - exact (proj2 (proj2 (proj2 (undefined_only_without_identity w))) "p1").
Defined.

Lemma unlike_removes_the_like_only_witness :
  let w := Examples.liked_world (Some "u2") [] in
  truthy (session w) = Some "u2" /\
  Prisma.find_like "u2" "p1" (db w) = Some (mkLike "u2" "p1") /\
  notifications (db (snd (toggleLike "p1" w))) = notifications (db w) /\
  exists w', toggleLike "p1" w = (inr (Success tt), w').
Proof.
  intros w.
  destruct (unlike_removes_the_like_only w "p1" "u2" (mkLike "u2" "p1") eq_refl eq_refl)
    as (Hkeep & _ & Hrun).
  split; [reflexivity|]. split; [reflexivity|]. split; [exact Hkeep|].
  assert (Hplan : no_fault (firstn 5 (faults w))) by (intros e []).
  exact (Hrun Sample.p1 eq_refl Hplan).
Defined.

Lemma toggleLike_touches_one_pair_witness :
  let w := Examples.liked_world (Some "u1") [] in
  (session w <> Some "u2" \/ "p1" <> "p1") /\
  filter (Prisma.like_has_key "u2" "p1") (likes (db (snd (toggleLike "p1" w)))) =
    [mkLike "u2" "p1"].
Proof.
  intros w.
  assert (Hother : session w <> Some "u2" \/ "p1" <> "p1") by (left; cbn; discriminate).
  split; [exact Hother|].
  destruct (toggleLike_touches_one_pair w "p1" "u2" "p1" Hother) as (_ & _ & _ & Hlikes).
  rewrite Hlikes. reflexivity.
Defined.

Lemma toggles_notify_once_per_like_witness :
  let w := Sample.world (Some "u2") [] in
  match toggles 3 "p1" w with
  | Some w' =>
      exists ns : list Notification,
        notifications (db w') = notifications (db w) ++ ns /\
        Forall (is_like_notification "u1" "u2" "p1") ns /\
        length ns = 2
  | None => False
  end.
Proof.
  intros w.
  destruct (toggles 3 "p1" w) as [w'|] eqn:Hrun; [|vm_compute in Hrun; discriminate].
  exact (toggles_notify_once_per_like 3 w w' "p1" "u2" Sample.p1
           eq_refl eq_refl eq_refl Hrun).
Defined.

Lemma liked_store_unique : likes_unique Examples.liked_store.
Proof.
  intros u postId. unfold count_likes. cbn.
  destruct (Prisma.like_has_key u postId (mkLike "u2" "p1")); cbn; lia.
Qed.

Lemma actions_keep_likes_unique_witness :
  let w := Examples.liked_world (Some "u1") [] in
  likes_unique (db w) /\
  likes_unique (db (snd (toggleLike "p1" w))) /\
  likes (db (snd (toggleLike "p1" w))) = [mkLike "u2" "p1"; mkLike "u1" "p1"].
Proof.
  intros w. split; [exact liked_store_unique|]. split; [|reflexivity].
  exact (proj1 (proj2 (actions_keep_likes_unique w liked_store_unique)) "p1").
Defined.

Lemma actions_never_notify_the_actor_witness :
  let w := Examples.liked_world (Some "u1") [] in
  no_self_notification (db w) /\
  no_self_notification (db (snd (createComment "p1" "mine" w))) /\
  no_self_notification (db (snd (createComment "p2" "yours" w))).
Proof.
  intros w.
  assert (Hclean : no_self_notification (db w))
    by (repeat constructor; cbn; discriminate).
  split; [exact Hclean|].
  destruct (actions_never_notify_the_actor w Hclean) as (_ & _ & Hcomment & _).
  split; apply Hcomment.
Defined.

Lemma createComment_missing_post_witness :
  let w := Sample.world (Some "u2") [] in
  truthy (session w) = Some "u2" /\
  "hi" <> "" /\
  Prisma.find_post "p9" (db w) = None /\
  exists (w' : World) (e : thrown),
    createComment "p9" "hi" w = (inr (Failure "Failed to create comment"), w') /\
    db w' = db w /\
    revalidated w' = revalidated w /\
    console w' = console w ++ [mkLog LevelError "Failed to create comment:" e] /\
    (no_fault (firstn 2 (faults w)) -> e = JsError "Post not found").
Proof.
  intros w.
  assert (Hcontent : "hi" <> "") by discriminate.
  split; [reflexivity|]. split; [exact Hcontent|]. split; [reflexivity|].
  exact (createComment_missing_post w "p9" "hi" "u2" eq_refl Hcontent eq_refl).
Defined.

Lemma createComment_then_getPosts_witness :
  let w := Sample.world (Some "u2") [] in
  match createComment "p1" "third" w with
  | (inr (Success c), w1) =>
      match getPosts w1 with
      | (inr rows, _) =>
          comment_content c = "third" /\
          truthy (session w) = Some (comment_authorId c) /\
          (exists row, In row rows /\ post_id (pwr_post row) = "p1") /\
          (forall row,
             In row rows -> post_id (pwr_post row) = "p1" ->
             In c (map cwa_comment (pwr_comments row)))
      | _ => False
      end
  | _ => False
  end.
Proof.
  intros w.
  destruct (createComment "p1" "third" w) as [[e|[|c|msg]] w1] eqn:Hc;
    try (vm_compute in Hc; discriminate).
  destruct (getPosts w1) as [[e|rows] w2] eqn:Hl.
  - evaluate_run Hc. vm_compute in Hl. discriminate.
  - exact (createComment_then_getPosts w w1 w2 "p1" "third" c rows Hc Hl).
Defined.

Lemma like_then_getPosts_witness :
  let w := Examples.liked_world (Some "u1") [] in
  match toggleLike "p1" w with
  | (inr (Success _), w1) =>
      match getPosts w1 with
      | (inr rows, _) =>
          (exists row, In row rows /\ post_id (pwr_post row) = "p1") /\
          (forall row,
             In row rows -> post_id (pwr_post row) = "p1" ->
             In (mkLikeUserId "u1") (pwr_likes row) /\
             pwr_count_likes row = S (length (Prisma.likes_of (db w) (pwr_post row))))
      | _ => False
      end
  | _ => False
  end.
Proof.
  intros w.
  destruct (toggleLike "p1" w) as [[e|[|[]|msg]] w1] eqn:Hc;
    try (vm_compute in Hc; discriminate).
  destruct (getPosts w1) as [[e|rows] w2] eqn:Hl.
  - evaluate_run Hc. vm_compute in Hl. discriminate.
  - exact (like_then_getPosts w w1 w2 "p1" "u1" rows eq_refl eq_refl Hc Hl).
Defined.

Lemma deletePost_removes_that_post_only_witness :
  let w := Sample.world (Some "u1") [] in
  In Sample.p2 (posts (db w)) /\
  post_id Sample.p2 <> "p1" /\
  In Sample.p2 (posts (db (snd (deletePost "p1" w)))) /\
  posts (db (snd (deletePost "p1" w))) = [Sample.p2].
Proof.
  intros w.
  assert (Hin : In Sample.p2 (posts (db w))) by (right; left; reflexivity).
  assert (Hid : post_id Sample.p2 <> "p1") by (cbn; discriminate).
  split; [exact Hin|]. split; [exact Hid|]. split; [|reflexivity].
  exact (proj1 (deletePost_removes_that_post_only w "p1") Sample.p2 Hin Hid).
Defined.

